(** * Dockflow dynamic inventory: [ansible/inventory.py]

    A shallow embedding of the inventory script and the properties of its
    three functions, [write_ssh_key], [get_inventory] and [main].

    Python text is a sequence of Unicode code points, decoded JSON is an
    inductive type of Python values, and the two files the script touches,
    its output streams and the exceptions it can raise are threaded
    through a state-and-exception monad over a record [world]. *)

From Stdlib Require Import List NArith ZArith Bool String Ascii.
Import ListNotations.

(** ** Python strings *)

(** A [str] is a list of code points. *)
Definition pystr := list N.

(** An ASCII literal as a [str]. *)
Definition str (s : string) : pystr :=
  map N_of_ascii (list_ascii_of_string s).

Definition LF : N := 10.
Definition CR : N := 13.
Definition BACKSLASH : N := 92.
Definition LETTER_n : N := 110.

Fixpoint pystr_eqb (a b : pystr) : bool :=
  match a, b with
  | [], [] => true
  | x :: a', y :: b' => N.eqb x y && pystr_eqb a' b'
  | _, _ => false
  end.

Fixpoint startswith (p s : pystr) : bool :=
  match p, s with
  | [], _ => true
  | x :: p', y :: s' => N.eqb x y && startswith p' s'
  | _ :: _, [] => false
  end.

(** [s.replace(old, new)] for a non-empty [old]: occurrences are found from
    the left and do not overlap.  [skip] counts the code points of a match
    that are still to be dropped. *)
Fixpoint replace_from (old new : pystr) (skip : nat) (s : pystr) : pystr :=
  match s with
  | [] => []
  | c :: t =>
      match skip with
      | S k => replace_from old new k t
      | O =>
          if startswith old s
          then new ++ replace_from old new (pred (List.length old)) t
          else c :: replace_from old new 0 t
      end
  end.

Definition replace (old new s : pystr) : pystr := replace_from old new 0 s.

(** Code points for which [str.isspace] holds; these are what a bare
    [strip()] removes. *)
Definition isspace (c : N) : bool :=
  ((9 <=? c) && (c <=? 13) || (28 <=? c) && (c <=? 32)
   || (c =? 133) || (c =? 160) || (c =? 5760)
   || (8192 <=? c) && (c <=? 8202)
   || (c =? 8232) || (c =? 8233) || (c =? 8239) || (c =? 8287)
   || (c =? 12288))%N.

Fixpoint lstrip (s : pystr) : pystr :=
  match s with
  | [] => []
  | c :: t => if isspace c then lstrip t else s
  end.

Definition rstrip (s : pystr) : pystr := rev (lstrip (rev s)).

Definition strip (s : pystr) : pystr := rstrip (lstrip s).

(** Line 26 of the source:
    [private_key.replace('\\n', '\n').replace('\r\n', '\n').strip() + '\n'] *)
Definition normalize_key (private_key : pystr) : pystr :=
  strip (replace [CR; LF] [LF] (replace [BACKSLASH; LETTER_n] [LF] private_key))
  ++ [LF].

(** ** Decoded JSON: the Python values built by [json.load] *)

(** A float is identified by a numeral that rounds to it,
    [(-1)^neg * mant * 10^exp10], or is an infinity or a NaN.  The script
    never computes with a float: it tests it for truth and formats it. *)
Inductive pyfloat :=
| FDec (neg : bool) (mant : N) (exp10 : Z)
| FInf (neg : bool)
| FNaN.

#[warnings="-register-all"]
Inductive json :=
| JNull
| JBool (b : bool)
| JInt (z : Z)
| JFloat (f : pyfloat)
| JStr (s : pystr)
| JArr (l : list json)
| JObj (d : list (pystr * json)).

(** A [dict] with [str] keys, in insertion order. *)
Definition dict := list (pystr * json).

Fixpoint dict_lookup (d : dict) (k : pystr) : option json :=
  match d with
  | [] => None
  | (k', v) :: d' => if pystr_eqb k' k then Some v else dict_lookup d' k
  end.

(** [d.get(k, default)] *)
Definition dict_get (d : dict) (k : pystr) (default : json) : json :=
  match dict_lookup d k with
  | Some v => v
  | None => default
  end.

(** [d[k] = v]: an existing key keeps its place. *)
Fixpoint dict_set (d : dict) (k : pystr) (v : json) : dict :=
  match d with
  | [] => [(k, v)]
  | (k', v') :: d' =>
      if pystr_eqb k' k then (k', v) :: d' else (k', v') :: dict_set d' k v
  end.

(** A numeral rounds to a float other than zero when it exceeds half of
    the least subnormal, [2^-1075]; exactly half rounds to even, that is
    to zero. *)
Definition float_nonzero (f : pyfloat) : bool :=
  match f with
  | FDec _ m e =>
      if (0 <=? e)%Z then (0 <? m)%N
      else (10 ^ (- e) <? Z.of_N m * 2 ^ 1075)%Z
  | FInf _ => true
  | FNaN => true
  end.

(** Truth value of an object, as tested by [if private_key:]. *)
Definition truthy (v : json) : bool :=
  match v with
  | JNull => false
  | JBool b => b
  | JInt z => negb (z =? 0)%Z
  | JFloat f => float_nonzero f
  | JStr s => match s with [] => false | _ => true end
  | JArr l => match l with [] => false | _ => true end
  | JObj d => match d with [] => false | _ => true end
  end.

(** [type(v).__name__] *)
Definition type_name (v : json) : pystr :=
  match v with
  | JNull => str "NoneType"
  | JBool _ => str "bool"
  | JInt _ => str "int"
  | JFloat _ => str "float"
  | JStr _ => str "str"
  | JArr _ => str "list"
  | JObj _ => str "dict"
  end.

(** ** Exceptions *)

Inductive exn_class :=
| JSONDecodeError
| OSError            (* IOError is an alias of OSError *)
| UnicodeDecodeError
| UnicodeEncodeError
| AttributeError
| ValueError
| RecursionError.

Record exn := Exn { exn_type : exn_class; exn_msg : pystr }.

(** The message of the AttributeError raised by [v.attr] on an object
    without that attribute. *)
Definition no_attribute (v : json) (attr : string) : exn :=
  Exn AttributeError
      (str "'" ++ type_name v ++ str "' object has no attribute '"
       ++ str attr ++ str "'").

Inductive outcome (A : Type) :=
| Returned (a : A)
| Raised (e : exn).

Arguments Returned {A} a.
Arguments Raised {A} e.

(** ** The encoding of text files *)

(** A file opened in text mode is written in UTF-8, which has no encoding
    for the surrogates U+D800 to U+DFFF. *)
Definition is_surrogate (c : N) : bool := ((55296 <=? c) && (c <=? 57343))%N.

Definition utf8_encodable (s : pystr) : bool :=
  forallb (fun c => negb (is_surrogate c)) s.

Definition hex_digit (d : N) : N := if (d <? 10)%N then (48 + d)%N else (87 + d)%N.

(** The four hexadecimal digits of a code point below 65536. *)
Definition hex4_lower (c : N) : pystr :=
  [ hex_digit (c / 4096 mod 16); hex_digit (c / 256 mod 16);
    hex_digit (c / 16 mod 16); hex_digit (c mod 16) ]%N.

Fixpoint decimal_from (fuel : nat) (n : N) (acc : pystr) : pystr :=
  match fuel with
  | O => acc
  | S f =>
      let acc' := (48 + n mod 10)%N :: acc in
      if (n / 10 =? 0)%N then acc' else decimal_from f (n / 10)%N acc'
  end.

(** [str(n)] for a position in a text. *)
Definition decimal_of (n : N) : pystr :=
  decimal_from (S (N.to_nat (N.size n))) n [].

(** The number of surrogates a text starts with. *)
Fixpoint surrogate_run (s : pystr) : N :=
  match s with
  | c :: t => if is_surrogate c then (1 + surrogate_run t)%N else 0%N
  | [] => 0%N
  end.

(** The UnicodeEncodeError of the first run of surrogates of a text that
    starts at position [pos], if it has one. *)
Fixpoint utf8_encode_error_from (pos : N) (s : pystr) : option exn :=
  match s with
  | [] => None
  | c :: t =>
      if is_surrogate c then
        Some (Exn UnicodeEncodeError
                (if (surrogate_run t =? 0)%N
                 then str "'utf-8' codec can't encode character '\u"
                      ++ hex4_lower c ++ str "' in position "
                      ++ decimal_of pos ++ str ": surrogates not allowed"
                 else str "'utf-8' codec can't encode characters in position "
                      ++ decimal_of pos ++ str "-"
                      ++ decimal_of (pos + surrogate_run t)
                      ++ str ": surrogates not allowed"))
      else utf8_encode_error_from (pos + 1) t
  end.

Definition utf8_encode_error (s : pystr) : option exn :=
  utf8_encode_error_from 0 s.

(** ** The world of the script *)

Definition CONTEXT_FILE : pystr := str "/tmp/dockflow_context.json".
Definition SSH_KEY_FILE : pystr := str "/tmp/dockflow_key".

Definition S_IRUSR : N := 256.   (* 0o400 *)
Definition S_IWUSR : N := 128.   (* 0o200 *)

(** What is found at [CONTEXT_FILE]. *)
Inductive input_file :=
| Absent                        (* os.path.exists is False *)
| Unreadable (msg : pystr)      (* open or read raises OSError *)
| Undecodable (msg : pystr)     (* the bytes are not text in the encoding *)
| Text (t : pystr).

(** A regular file: its text and its permission bits. *)
Record file := File { content : pystr; mode : N }.

(** How the operating system answers the operations on [SSH_KEY_FILE]. *)
Inductive key_fault :=
| NoFault
| OpenFault (e : exn)
| WriteFault (e : exn)
| ChmodFault (e : exn).

(** Changes made to the file system, oldest first. *)
Inductive fs_event :=
| EvOpenW (path : pystr)                (* created or truncated *)
| EvWrite (path : pystr) (data : pystr)
| EvChmod (path : pystr) (bits : N).

Inductive err_output :=
| Line (s : pystr)
| Traceback (e : exn).

Record world := World {
  context_file : input_file;
  key_file : option file;
  key_io : key_fault;
  umask : N;
  fs_log : list fs_event;
  stdout : list json;          (* documents printed as json.dumps(_, indent=2) *)
  stderr : list err_output
}.

Definition set_key_file (f : option file) (w : world) : world :=
  World (context_file w) f (key_io w) (umask w) (fs_log w) (stdout w) (stderr w).

Definition log_event (ev : fs_event) (w : world) : world :=
  World (context_file w) (key_file w) (key_io w) (umask w)
        (fs_log w ++ [ev]) (stdout w) (stderr w).

Definition put_stdout (v : json) (w : world) : world :=
  World (context_file w) (key_file w) (key_io w) (umask w)
        (fs_log w) (stdout w ++ [v]) (stderr w).

Definition put_stderr (o : err_output) (w : world) : world :=
  World (context_file w) (key_file w) (key_io w) (umask w)
        (fs_log w) (stdout w) (stderr w ++ [o]).

(** ** State and exceptions *)

Definition M (A : Type) : Type := world -> outcome A * world.

Definition ret {A} (a : A) : M A := fun w => (Returned a, w).

Definition raise {A} (e : exn) : M A := fun w => (Raised e, w).

Definition bind {A B} (m : M A) (k : A -> M B) : M B :=
  fun w =>
    match m w with
    | (Returned a, w') => k a w'
    | (Raised e, w') => (Raised e, w')
    end.

Notation "x <- m ;; k" := (bind m (fun x => k))
  (at level 61, m at next level, right associativity).
Notation "m ;; k" := (bind m (fun _ => k))
  (at level 61, right associativity).

(** [try: body  except (classes) as e: handler e] *)
Definition try_except {A} (body : M A) (classes : exn_class -> bool)
           (handler : exn -> M A) : M A :=
  fun w =>
    match body w with
    | (Raised e, w') =>
        if classes (exn_type e) then handler e w' else (Raised e, w')
    | r => r
    end.

(** [os.path.exists(CONTEXT_FILE)] *)
Definition context_exists : M bool :=
  fun w =>
    (Returned (match context_file w with Absent => false | _ => true end), w).

(** [with open(CONTEXT_FILE, 'r') as f:] followed by [f.read()] *)
Definition read_context : M pystr :=
  fun w =>
    match context_file w with
    | Absent => (Raised (Exn OSError (str "[Errno 2] No such file or directory: '/tmp/dockflow_context.json'")), w)
    | Unreadable msg => (Raised (Exn OSError msg), w)
    | Undecodable msg => (Raised (Exn UnicodeDecodeError msg), w)
    | Text t => (Returned t, w)
    end.

(** [open(SSH_KEY_FILE, 'w')]: the file is created with the bits the umask
    leaves of [0o666], or truncated with its bits kept. *)
Definition key_open_w : M unit :=
  fun w =>
    match key_io w with
    | OpenFault e => (Raised e, w)
    | _ =>
        let bits := match key_file w with
                    | Some f => mode f
                    | None => N.ldiff 438 (umask w)
                    end in
        (Returned tt, log_event (EvOpenW SSH_KEY_FILE)
                                (set_key_file (Some (File [] bits)) w))
    end.

(** [f.write(data)] and the close at the end of the [with] block: the
    text is encoded first, and nothing is written of a text that cannot
    be encoded. *)
Definition key_write (data : pystr) : M unit :=
  fun w =>
    match utf8_encode_error data with
    | Some e => (Raised e, w)
    | None =>
        match key_io w with
        | WriteFault e => (Raised e, w)
        | _ =>
            let f := match key_file w with
                     | Some f => File (content f ++ data) (mode f)
                     | None => File data (N.ldiff 438 (umask w))
                     end in
            (Returned tt, log_event (EvWrite SSH_KEY_FILE data)
                                    (set_key_file (Some f) w))
        end
    end.

(** [os.chmod(SSH_KEY_FILE, bits)] *)
Definition key_chmod (bits : N) : M unit :=
  fun w =>
    match key_io w with
    | ChmodFault e => (Raised e, w)
    | _ =>
        let f := match key_file w with
                 | Some f => Some (File (content f) bits)
                 | None => None
                 end in
        (Returned tt, log_event (EvChmod SSH_KEY_FILE bits) (set_key_file f w))
    end.

(** [print(json.dumps(v, indent=2))] *)
Definition print_json (v : json) : M unit :=
  fun w => (Returned tt, put_stdout v w).

(** [print(s, file=sys.stderr)] *)
Definition eprint (s : pystr) : M unit :=
  fun w => (Returned tt, put_stderr (Line s) w).

(** [v.get(key, default)]: only a dict has the method. *)
Definition py_get (v : json) (key : pystr) (default : json) : M json :=
  match v with
  | JObj d => ret (dict_get d key default)
  | _ => raise (no_attribute v "get")
  end.

(** ** The part of the Python runtime the script relies on *)

Class PyRuntime := {
  (** [json.loads]: the decoded value, or the exception raised (a
      JSONDecodeError for text that is not JSON). *)
  json_loads : pystr -> outcome json;
  (** [str(v)] for a value that is not a [str]. *)
  repr_value : json -> pystr
}.

(** ** A reference runtime

    A decoder for the JSON grammar as [json.loads] reads it (strict
    strings, [NaN] and [Infinity] accepted, the last of duplicate keys
    wins), without the interpreter's limits on nesting depth and on the
    number of digits of an integer.  The text of a decode error is not
    reproduced.  The closed examples at the end of the file run on it; the
    theorems hold for every runtime. *)
Module Reference.

Definition is_ws (c : N) : bool :=
  ((c =? 32) || (c =? 9) || (c =? 10) || (c =? 13))%N.

Fixpoint skip_ws (s : pystr) : pystr :=
  match s with
  | c :: t => if is_ws c then skip_ws t else s
  | [] => []
  end.

Definition is_digit (c : N) : bool := ((48 <=? c) && (c <=? 57))%N.

(** A maximal run of decimal digits: its value on top of [acc], its
    length on top of [n], and what follows. *)
Fixpoint digits (acc : N) (n : nat) (s : pystr) : N * nat * pystr :=
  match s with
  | c :: t =>
      if is_digit c then digits (acc * 10 + (c - 48))%N (S n) t
      else (acc, n, s)
  | [] => (acc, n, [])
  end.

Definition hex_val (c : N) : option N :=
  if is_digit c then Some (c - 48)%N
  else if ((97 <=? c) && (c <=? 102))%N then Some (c - 87)%N
  else if ((65 <=? c) && (c <=? 70))%N then Some (c - 55)%N
  else None.

Definition hex4 (s : pystr) : option (N * pystr) :=
  match s with
  | a :: b :: c :: d :: r =>
      match hex_val a, hex_val b, hex_val c, hex_val d with
      | Some x, Some y, Some z, Some t =>
          Some (((x * 16 + y) * 16 + z) * 16 + t, r)%N
      | _, _, _, _ => None
      end
  | _ => None
  end.

Definition escape (c : N) : option N :=
  if (c =? 34)%N then Some 34%N          (* quote *)
  else if (c =? 92)%N then Some 92%N     (* backslash *)
  else if (c =? 47)%N then Some 47%N     (* slash *)
  else if (c =? 98)%N then Some 8%N      (* b *)
  else if (c =? 102)%N then Some 12%N    (* f *)
  else if (c =? 110)%N then Some 10%N    (* n *)
  else if (c =? 114)%N then Some 13%N    (* r *)
  else if (c =? 116)%N then Some 9%N     (* t *)
  else None.

(** A \u escape, joined with a following low surrogate when it is a high
    one. *)
Definition unicode_escape (s : pystr) : option (N * pystr) :=
  match hex4 s with
  | None => None
  | Some (h, r) =>
      if ((55296 <=? h) && (h <=? 56319))%N then
        match r with
        | 92%N :: 117%N :: r' =>
            match hex4 r' with
            | Some (l, r'') =>
                if ((56320 <=? l) && (l <=? 57343))%N
                then Some (65536 + (h - 55296) * 1024 + (l - 56320), r'')%N
                else Some (h, r)
            | None => None
            end
        | _ => Some (h, r)
        end
      else Some (h, r)
  end.

(** The body of a string, after its opening quote; [acc] is reversed. *)
Fixpoint scan_string (fuel : nat) (s acc : pystr) : option (pystr * pystr) :=
  match fuel with
  | O => None
  | S n =>
      match s with
      | [] => None
      | c :: r =>
          if (c =? 34)%N then Some (rev acc, r)
          else if (c =? 92)%N then
            match r with
            | [] => None
            | e :: r' =>
                if (e =? 117)%N then
                  match unicode_escape r' with
                  | Some (u, r'') => scan_string n r'' (u :: acc)
                  | None => None
                  end
                else
                  match escape e with
                  | Some x => scan_string n r' (x :: acc)
                  | None => None
                  end
            end
          else if (c <? 32)%N then None
          else scan_string n r (c :: acc)
      end
  end.

Definition py_string (s : pystr) : option (pystr * pystr) :=
  scan_string (List.length s) s [].

(** A number: an integer when it has neither fraction nor exponent. *)
Definition number (s : pystr) : option (json * pystr) :=
  let (neg, s1) := match s with
                   | 45%N :: t => (true, t)
                   | _ => (false, s)
                   end in
  let int_part :=
    match s1 with
    | c :: t =>
        if (c =? 48)%N then Some (0%N, t)
        else if is_digit c then
          let '(v, _, r) := digits 0 0 s1 in Some (v, r)
        else None
    | [] => None
    end in
  match int_part with
  | None => None
  | Some (i, r) =>
      let '(m, nfrac, r1, has_frac) :=
        match r with
        | 46%N :: d :: t =>
            if is_digit d then
              let '(v, k, r') := digits i 0 (d :: t) in (v, k, r', true)
            else (i, O, r, false)
        | _ => (i, O, r, false)
        end in
      let '(e, r2, has_exp) :=
        match r1 with
        | x :: t =>
            if ((x =? 101) || (x =? 69))%N then
              let (eneg, t1) := match t with
                                | 45%N :: u => (true, u)
                                | 43%N :: u => (false, u)
                                | _ => (false, t)
                                end in
              match digits 0 0 t1 with
              | (_, O, _) => (0%Z, r1, false)
              | (v, _, r') =>
                  ((if eneg then - Z.of_N v else Z.of_N v)%Z, r', true)
              end
            else (0%Z, r1, false)
        | [] => (0%Z, r1, false)
        end in
      if has_frac || has_exp
      then Some (JFloat (FDec neg m (e - Z.of_nat nfrac)), r2)
      else Some (JInt (if neg then - Z.of_N i else Z.of_N i), r2)
  end.

Definition keyword (s : pystr) : option (json * pystr) :=
  let after k := skipn (String.length k) s in
  if startswith (str "null") s then Some (JNull, after "null"%string)
  else if startswith (str "true") s then Some (JBool true, after "true"%string)
  else if startswith (str "false") s then Some (JBool false, after "false"%string)
  else if startswith (str "NaN") s then Some (JFloat FNaN, after "NaN"%string)
  else if startswith (str "Infinity") s
       then Some (JFloat (FInf false), after "Infinity"%string)
  else if startswith (str "-Infinity") s
       then Some (JFloat (FInf true), after "-Infinity"%string)
  else number s.

Fixpoint value (fuel : nat) (s : pystr) : option (json * pystr) :=
  match fuel with
  | O => None
  | S n =>
      match s with
      | [] => None
      | c :: r =>
          if (c =? 34)%N then
            match py_string r with
            | Some (t, r') => Some (JStr t, r')
            | None => None
            end
          else if (c =? 91)%N then
            match skip_ws r with
            | 93%N :: r' => Some (JArr [], r')
            | r1 => elements n r1 []
            end
          else if (c =? 123)%N then
            match skip_ws r with
            | 125%N :: r' => Some (JObj [], r')
            | r1 => members n r1 []
            end
          else keyword s
      end
  end
with elements (fuel : nat) (s : pystr) (acc : list json)
  : option (json * pystr) :=
  match fuel with
  | O => None
  | S n =>
      match value n s with
      | None => None
      | Some (v, r) =>
          match skip_ws r with
          | 44%N :: r' => elements n (skip_ws r') (v :: acc)
          | 93%N :: r' => Some (JArr (rev (v :: acc)), r')
          | _ => None
          end
      end
  end
with members (fuel : nat) (s : pystr) (acc : dict) : option (json * pystr) :=
  match fuel with
  | O => None
  | S n =>
      match s with
      | 34%N :: r =>
          match py_string r with
          | None => None
          | Some (k, r1) =>
              match skip_ws r1 with
              | 58%N :: r2 =>
                  match value n (skip_ws r2) with
                  | None => None
                  | Some (v, r3) =>
                      match skip_ws r3 with
                      | 44%N :: r4 => members n (skip_ws r4) (dict_set acc k v)
                      | 125%N :: r4 => Some (JObj (dict_set acc k v), r4)
                      | _ => None
                      end
                  end
              | _ => None
              end
          end
      | _ => None
      end
  end.

Definition loads (s : pystr) : outcome json :=
  let bad := Raised (Exn JSONDecodeError (str "Expecting value")) in
  match value (2 * List.length s + 2) (skip_ws s) with
  | Some (v, r) =>
      match skip_ws r with
      | [] => Returned v
      | _ => Raised (Exn JSONDecodeError (str "Extra data"))
      end
  | None => bad
  end.

Fixpoint decimal (fuel : nat) (n : N) (acc : pystr) : pystr :=
  match fuel with
  | O => acc
  | S f =>
      let acc' := (48 + n mod 10)%N :: acc in
      if (n / 10 =? 0)%N then acc' else decimal f (n / 10)%N acc'
  end.

(** [str] of None, of a bool and of an int; the repr of a float and of a
    container is not reproduced. *)
Definition repr (v : json) : pystr :=
  match v with
  | JNull => str "None"
  | JBool true => str "True"
  | JBool false => str "False"
  | JInt z =>
      (if (z <? 0)%Z then str "-" else [])
      ++ decimal (S (N.to_nat (N.size (Z.abs_N z)))) (Z.abs_N z) []
  | JStr s => s
  | _ => str "..."
  end.

Definition runtime : PyRuntime :=
  {| json_loads := loads; repr_value := repr |}.

End Reference.

(** ** Worlds and contexts of the examples *)

(** JSON text, written with an apostrophe for each double quote. *)
Definition json_text (s : string) : pystr :=
  map (fun c => if (c =? 39)%N then 34%N else c) (str s).

(** A world with nothing at the key path, no fault and umask 0o022. *)
Definition fresh_world (cf : input_file) : world :=
  World cf None NoFault 18 [] [] [].

(** The end-to-end scenario of the specification. *)
Definition scenario_text : pystr :=
  json_text "{'env':'prod','server_name':'web1','ssh_connection':{'host':'10.0.0.5','port':2222,'user':'deploy','private_key':'KEYDATA'}}".

Definition scenario_connection : dict :=
  [ (str "host", JStr (str "10.0.0.5"));
    (str "port", JInt 2222);
    (str "user", JStr (str "deploy"));
    (str "private_key", JStr (str "KEYDATA")) ].

Definition scenario_ctx : dict :=
  [ (str "env", JStr (str "prod"));
    (str "server_name", JStr (str "web1"));
    (str "ssh_connection", JObj scenario_connection) ].

Definition scenario_hostvars : dict :=
  [ (str "ansible_host", JStr (str "10.0.0.5"));
    (str "ansible_port", JInt 2222);
    (str "ansible_user", JStr (str "deploy"));
    (str "ansible_ssh_private_key_file", JStr (str "/tmp/dockflow_key"));
    (str "ansible_ssh_common_args",
     JStr (str "-o StrictHostKeyChecking=no -o UserKnownHostsFile=/dev/null")) ].

(** A context with a become password and no key, under the fallback name
    of the connection. *)
Definition sudo_text : pystr :=
  json_text "{'server_name':'db','connection':{'host':'db.internal','password':'s3cret'}}".

Definition sudo_connection : dict :=
  [ (str "host", JStr (str "db.internal"));
    (str "password", JStr (str "s3cret")) ].

Definition sudo_ctx : dict :=
  [ (str "server_name", JStr (str "db"));
    (str "connection", JObj sudo_connection) ].

(** A world where a key of an earlier run is still in place, readable by
    everyone. *)
Definition stale_key_world (cf : input_file) : world :=
  World cf (Some (File (str "OLDKEY") 420)) NoFault 18 [] [] [].

(** A world where the key file cannot be opened for writing. *)
Definition denied : exn :=
  Exn OSError (str "[Errno 13] Permission denied: '/tmp/dockflow_key'").

Definition read_only_world (cf : input_file) : world :=
  World cf None (OpenFault denied) 18 [] [] [].

(** A context whose [ssh_connection] is null beside a usable
    [connection]. *)
Definition shadowed_text : pystr :=
  json_text "{'ssh_connection':null,'connection':{'host':'db.internal'}}".

Definition shadowed_ctx : dict :=
  [ (str "ssh_connection", JNull);
    (str "connection", JObj [(str "host", JStr (str "db.internal"))]) ].

(** A context whose key is a number. *)
Definition numeric_key_text : pystr :=
  json_text "{'ssh_connection':{'private_key':5}}".

Definition numeric_key_ctx : dict :=
  [ (str "ssh_connection", JObj [(str "private_key", JInt 5)]) ].

(** A context whose key is two spaces and a line feed. *)
Definition blank_key_text : pystr :=
  json_text "{'connection':{'private_key':'  \n'}}".

Definition blank_key_ctx : dict :=
  [ (str "connection", JObj [(str "private_key", JStr [32; 32; 10]%N)]) ].

(** A world where the permission bits of the key file cannot be changed,
    with and without a key file in place. *)
Definition not_permitted : exn :=
  Exn OSError (str "[Errno 1] Operation not permitted: '/tmp/dockflow_key'").

Definition chmod_denied_world (kf : option file) : world :=
  World Absent kf (ChmodFault not_permitted) 18 [] [] [].

(** ** The script *)

Section Inventory.

Context {runtime : PyRuntime}.

(** [json.load(f)] on the file opened at [CONTEXT_FILE]. *)
Definition json_load_context : M json :=
  text <- read_context ;;
  fun w => (json_loads text, w).

(** A replacement field of an f-string, [f"{v}"]. *)
Definition format_value (v : json) : pystr :=
  match v with
  | JStr s => s
  | _ => repr_value v
  end.

(** [def write_ssh_key(private_key: str) -> str] *)
Definition write_ssh_key (private_key : json) : M pystr :=
  normalized_key <-
    match private_key with
    | JStr s => ret (normalize_key s)
    | _ => raise (no_attribute private_key "replace")
    end ;;
  key_open_w ;;
  key_write normalized_key ;;
  key_chmod (N.lor S_IRUSR S_IWUSR) ;;
  ret SSH_KEY_FILE.

(** [{"_meta": {"hostvars": {}}}] *)
Definition empty_inventory : json :=
  JObj [(str "_meta", JObj [(str "hostvars", JObj [])])].

(** The exceptions named by [except (json.JSONDecodeError, IOError)]. *)
Definition load_errors (c : exn_class) : bool :=
  match c with
  | JSONDecodeError | OSError => true
  | _ => false
  end.

(** Lines 51-91: what [get_inventory] does with the decoded context. *)
Definition build_inventory (ctx : json) : M json :=
  fallback <- py_get ctx (str "connection") (JObj []) ;;
  connection <- py_get ctx (str "ssh_connection") fallback ;;
  env <- py_get ctx (str "env") (JStr (str "unknown")) ;;
  server_name <- py_get ctx (str "server_name") (JStr (str "server")) ;;
  private_key <- py_get connection (str "private_key") (JStr []) ;;
  (if truthy private_key
   then _ <- write_ssh_key private_key ;; ret tt
   else ret tt) ;;
  let host_name := format_value env ++ str "-" ++ format_value server_name in
  ansible_host <- py_get connection (str "host") (JStr []) ;;
  ansible_port <- py_get connection (str "port") (JInt 22) ;;
  ansible_user <- py_get connection (str "user") (JStr (str "root")) ;;
  let hostvars : dict :=
    [ (str "ansible_host", ansible_host);
      (str "ansible_port", ansible_port);
      (str "ansible_user", ansible_user);
      (str "ansible_ssh_private_key_file", JStr (str "/tmp/dockflow_key"));
      (str "ansible_ssh_common_args",
       JStr (str "-o StrictHostKeyChecking=no -o UserKnownHostsFile=/dev/null")) ] in
  password <- py_get connection (str "password") (JStr []) ;;
  let hostvars :=
    if truthy password
    then dict_set hostvars (str "ansible_become_password") password
    else hostvars in
  ret (JObj [ (str "all", JObj [ (str "hosts", JArr [JStr host_name]);
                                 (str "vars", JObj []) ]);
              (str "_meta", JObj [ (str "hostvars",
                                    JObj [(host_name, JObj hostvars)]) ]) ]).

(** [def get_inventory()] *)
Definition get_inventory : M json :=
  present <- context_exists ;;
  if negb present then ret empty_inventory
  else
    loaded <- try_except
                (ctx <- json_load_context ;; ret (inl ctx))
                load_errors
                (fun e =>
                   eprint (str "Error reading context file: " ++ exn_msg e) ;;
                   ret (inr empty_inventory)) ;;
    match loaded with
    | inr inventory => ret inventory
    | inl ctx => build_inventory ctx
    end.

(** [def main()], on [sys.argv]. *)
Definition main (argv : list pystr) : M unit :=
  if (List.length argv =? 2)%nat && pystr_eqb (nth 1 argv []) (str "--list")
  then inventory <- get_inventory ;; print_json inventory
  else if (List.length argv =? 3)%nat
          && pystr_eqb (nth 1 argv []) (str "--host")
  then
    inventory <- get_inventory ;;
    let host := nth 2 argv [] in
    meta <- py_get inventory (str "_meta") (JObj []) ;;
    all_hostvars <- py_get meta (str "hostvars") (JObj []) ;;
    hostvars <- py_get all_hostvars host (JObj []) ;;
    print_json hostvars
  else inventory <- get_inventory ;; print_json inventory.

(** The script run as a program: an exception that leaves [main] is
    reported on the error stream and the exit status is 1. *)
Definition script (argv : list pystr) (w : world) : N * world :=
  match main argv w with
  | (Returned _, w') => (0%N, w')
  | (Raised e, w') => (1%N, put_stderr (Traceback e) w')
  end.

(** ** Vocabulary of the statements *)

(** Every carriage return is immediately followed by a line feed. *)
Fixpoint cr_paired (s : pystr) : bool :=
  match s with
  | [] => true
  | c :: t =>
      (if (c =? CR)%N
       then match t with d :: _ => (d =? LF)%N | [] => false end
       else true) && cr_paired t
  end.

(** The text ends with a line feed, and what precedes that line feed does
    not end with a line feed or a carriage return. *)
Definition one_trailing_newline (s : pystr) : Prop :=
  exists body, s = body ++ [LF]
    /\ forall b c, body = b ++ [c] -> c <> LF /\ c <> CR.

(** The code point [a] is somewhere immediately followed by [b]. *)
Fixpoint has_pair (a b : N) (s : pystr) : bool :=
  match s with
  | [] => false
  | x :: t =>
      ((x =? a)%N && match t with y :: _ => (y =? b)%N | [] => false end)
      || has_pair a b t
  end.

(** The connection object of a context: [ssh_connection], else
    [connection], else an empty object. *)
Definition context_connection (ctx : dict) : json :=
  match dict_lookup ctx (str "ssh_connection") with
  | Some c => c
  | None =>
      match dict_lookup ctx (str "connection") with
      | Some c => c
      | None => JObj []
      end
  end.

(** The inventory document of one host. *)
Definition inventory_doc (host_name : pystr) (hostvars : dict) : json :=
  JObj [ (str "all", JObj [ (str "hosts", JArr [JStr host_name]);
                            (str "vars", JObj []) ]);
         (str "_meta", JObj [ (str "hostvars",
                               JObj [(host_name, JObj hostvars)]) ]) ].

(** The hostvars record of a connection object. *)
Definition connection_hostvars (c : dict) : dict :=
  [ (str "ansible_host", dict_get c (str "host") (JStr []));
    (str "ansible_port", dict_get c (str "port") (JInt 22));
    (str "ansible_user", dict_get c (str "user") (JStr (str "root")));
    (str "ansible_ssh_private_key_file", JStr (str "/tmp/dockflow_key"));
    (str "ansible_ssh_common_args",
     JStr (str "-o StrictHostKeyChecking=no -o UserKnownHostsFile=/dev/null")) ]
  ++ (let password := dict_get c (str "password") (JStr []) in
      if truthy password
      then [(str "ansible_become_password", password)]
      else []).

(** The host identifier of a context. *)
Definition context_host_name (ctx : dict) : pystr :=
  format_value (dict_get ctx (str "env") (JStr (str "unknown")))
  ++ str "-"
  ++ format_value (dict_get ctx (str "server_name") (JStr (str "server"))).

(** The line printed when the context cannot be loaded. *)
Definition load_diagnostic (msg : pystr) : err_output :=
  Line (str "Error reading context file: " ++ msg).

(** The key of a context can be used: there is none to write, or it is a
    string that can be encoded and the key file can be written. *)
Definition key_usable (w : world) (connection : dict) : Prop :=
  let private_key := dict_get connection (str "private_key") (JStr []) in
  truthy private_key = false
  \/ (exists s, private_key = JStr s /\ utf8_encodable s = true)
     /\ key_io w = NoFault.

(** The world after a key has been written without a fault. *)
Definition key_written (data : pystr) (w : world) : world :=
  World (context_file w) (Some (File data 384)) (key_io w) (umask w)
        (fs_log w ++ [ EvOpenW SSH_KEY_FILE; EvWrite SSH_KEY_FILE data;
                       EvChmod SSH_KEY_FILE 384 ])
        (stdout w) (stderr w).

(** ** Strings *)

Lemma pystr_eqb_eq (a b : pystr) : pystr_eqb a b = true <-> a = b.
Proof.
  revert b; induction a as [|x a IH]; destruct b as [|y b]; simpl;
    try (split; [discriminate | discriminate]); try tauto.
  rewrite andb_true_iff, N.eqb_eq, IH.
  split; [intros [-> ->]; reflexivity | intros [= -> ->]; auto].
Qed.

Lemma pystr_eqb_refl (a : pystr) : pystr_eqb a a = true.
Proof. apply pystr_eqb_eq; reflexivity. Qed.

Lemma replace_nil (old new : pystr) : replace old new [] = [].
Proof. reflexivity. Qed.

Lemma replace_single (a b : N) (new : pystr) (x : N) :
  replace [a; b] new [x] = [x].
Proof.
  unfold replace; simpl.
  destruct (a =? x)%N; reflexivity.
Qed.

(** One step of a replacement of a two-character pattern. *)
Lemma replace_pair (a b : N) (new : pystr) (x y : N) (t : pystr) :
  replace [a; b] new (x :: y :: t) =
  if ((x =? a) && (y =? b))%N
  then new ++ replace [a; b] new t
  else x :: replace [a; b] new (y :: t).
Proof.
  unfold replace; simpl.
  rewrite (N.eqb_sym x a), (N.eqb_sym y b).
  destruct (a =? x)%N, (b =? y)%N; reflexivity.
Qed.

(** Induction that follows [replace_pair]. *)
Lemma pair_induction (P : pystr -> Prop) :
  P [] -> (forall x, P [x]) ->
  (forall x y t, P t -> P (y :: t) -> P (x :: y :: t)) ->
  forall s, P s.
Proof.
  intros H0 H1 H2 s.
  assert (H : P s /\ forall x, P (x :: s)); [| apply H].
  induction s as [|y t [IHt IHyt]]; split; auto.
Qed.

Lemma replace_head_kept (a b : N) (new : pystr) (x : N) (t : pystr) :
  x <> a -> exists r, replace [a; b] new (x :: t) = x :: r.
Proof.
  intros Hx. destruct t as [|y t].
  - rewrite replace_single; eauto.
  - rewrite replace_pair.
    apply N.eqb_neq in Hx; rewrite Hx; simpl; eauto.
Qed.

Lemma cr_paired_tail (c : N) (t : pystr) :
  cr_paired (c :: t) = true -> cr_paired t = true.
Proof. simpl; intros H; apply andb_true_iff in H; tauto. Qed.

Lemma cr_paired_cr (t : pystr) :
  cr_paired (CR :: t) = true -> exists t', t = LF :: t'.
Proof.
  simpl; intros H; apply andb_true_iff in H; destruct H as [H _].
  destruct t as [|d t]; [discriminate|].
  apply N.eqb_eq in H; subst; eauto.
Qed.

Lemma cr_paired_cons (c : N) (t : pystr) :
  c <> CR -> cr_paired t = true -> cr_paired (c :: t) = true.
Proof.
  intros Hc Ht; simpl. apply N.eqb_neq in Hc; rewrite Hc, Ht; reflexivity.
Qed.

(** Replacing backslash-n keeps carriage returns paired. *)
Lemma replace_backslash_n_paired (s : pystr) :
  cr_paired s = true ->
  cr_paired (replace [BACKSLASH; LETTER_n] [LF] s) = true.
Proof.
  induction s as [| x | x y t IHt IHyt] using pair_induction; intros H.
  - reflexivity.
  - rewrite replace_single; assumption.
  - rewrite replace_pair.
    destruct ((x =? BACKSLASH) && (y =? LETTER_n))%N eqn:E.
    + apply cr_paired_cons; [discriminate|].
      apply IHt. eapply cr_paired_tail, cr_paired_tail, H.
    + pose proof (IHyt (cr_paired_tail _ _ H)) as IH.
      destruct (N.eq_dec x CR) as [-> | Hx].
      * destruct (cr_paired_cr _ H) as [t' [= -> ->]].
        destruct (replace_head_kept BACKSLASH LETTER_n [LF] LF t') as [r Hr];
          [discriminate|].
        rewrite Hr in *. simpl. simpl in IH. exact IH.
      * apply cr_paired_cons; assumption.
Qed.

(** Replacing CRLF removes every paired carriage return. *)
Lemma replace_crlf_no_cr (s : pystr) :
  cr_paired s = true -> ~ In CR (replace [CR; LF] [LF] s).
Proof.
  induction s as [| x | x y t IHt IHyt] using pair_induction; intros H.
  - simpl; tauto.
  - rewrite replace_single. simpl in H.
    destruct (x =? CR)%N eqn:E; [discriminate|].
    apply N.eqb_neq in E. simpl; intuition congruence.
  - rewrite replace_pair.
    destruct ((x =? CR) && (y =? LF))%N eqn:E.
    + simpl. intros [Hc | Hc]; [discriminate|].
      revert Hc. apply IHt. eapply cr_paired_tail, cr_paired_tail, H.
    + assert (Hx : x <> CR).
      { intros ->. destruct (cr_paired_cr _ H) as [t' [= -> ->]].
        discriminate. }
      simpl. intros [Hc | Hc]; [congruence|].
      revert Hc. apply IHyt. eapply cr_paired_tail, H.
Qed.

Lemma lstrip_incl (s : pystr) (c : N) : In c (lstrip s) -> In c s.
Proof.
  induction s as [|x s IH]; simpl; [tauto|].
  destruct (isspace x); simpl; tauto.
Qed.

Lemma lstrip_head (s r : pystr) (c : N) :
  lstrip s = c :: r -> isspace c = false.
Proof.
  induction s as [|x s IH]; simpl; [discriminate|].
  destruct (isspace x) eqn:E; [exact IH|].
  intros [= -> _]; exact E.
Qed.

Lemma strip_incl (s : pystr) (c : N) : In c (strip s) -> In c s.
Proof.
  unfold strip, rstrip. intros H.
  apply lstrip_incl. apply in_rev.
  apply lstrip_incl. apply in_rev in H. exact H.
Qed.

(** What [strip] returns does not end with white space. *)
Lemma strip_last (s b : pystr) (c : N) :
  strip s = b ++ [c] -> isspace c = false.
Proof.
  unfold strip, rstrip. intros H.
  apply (f_equal (@rev N)) in H.
  rewrite rev_involutive, rev_app_distr in H. simpl in H.
  eapply lstrip_head, H.
Qed.

Lemma normalize_key_one_newline (k : pystr) :
  one_trailing_newline (normalize_key k).
Proof.
  unfold normalize_key. eexists; split; [reflexivity|].
  intros b c H. apply strip_last in H.
  split; intros ->; discriminate.
Qed.

Lemma normalize_key_no_cr (k : pystr) :
  cr_paired k = true -> ~ In CR (normalize_key k).
Proof.
  intros H Hin. unfold normalize_key in Hin.
  apply in_app_or in Hin. destruct Hin as [Hin | [Hin | []]];
    [| discriminate].
  apply strip_incl in Hin. revert Hin.
  apply replace_crlf_no_cr, replace_backslash_n_paired, H.
Qed.

(** ** Writing the key *)

Lemma utf8_encode_error_from_none (s : pystr) (pos : N) :
  utf8_encodable s = true -> utf8_encode_error_from pos s = None.
Proof.
  revert pos. induction s as [|c s IH]; intros pos H; [reflexivity|].
  simpl in *. apply andb_true_iff in H. destruct H as [Hc Hs].
  destruct (is_surrogate c); [discriminate|]. apply IH, Hs.
Qed.

Lemma utf8_encode_error_none (s : pystr) :
  utf8_encodable s = true -> utf8_encode_error s = None.
Proof. apply utf8_encode_error_from_none. Qed.

Lemma utf8_encode_error_from_some (s : pystr) (pos : N) :
  utf8_encodable s = false ->
  exists msg, utf8_encode_error_from pos s = Some (Exn UnicodeEncodeError msg).
Proof.
  revert pos. induction s as [|c s IH]; intros pos H; [discriminate|].
  simpl in *. destruct (is_surrogate c); [eauto|]. apply IH, H.
Qed.

Lemma utf8_encode_error_some (s : pystr) :
  utf8_encodable s = false ->
  exists msg, utf8_encode_error s = Some (Exn UnicodeEncodeError msg).
Proof. apply utf8_encode_error_from_some. Qed.

(** A replacement by one code point brings in nothing but that code
    point. *)
Lemma replace_incl (a b c x : N) (s : pystr) :
  In x (replace [a; b] [c] s) -> x = c \/ In x s.
Proof.
  induction s as [| y | y z t IHt IHyt] using pair_induction.
  - simpl; tauto.
  - rewrite replace_single. auto.
  - rewrite replace_pair. destruct ((y =? a) && (z =? b))%N.
    + simpl. intros [H | H]; [auto|]. destruct (IHt H); simpl; auto.
    + simpl. intros [H | H]; [auto|]. destruct (IHyt H); simpl; auto.
Qed.

(** A replacement keeps every code point that is not of the pattern. *)
Lemma replace_keeps (a b x : N) (new s : pystr) :
  x <> a -> x <> b -> In x s -> In x (replace [a; b] new s).
Proof.
  intros Ha Hb.
  induction s as [| y | y z t IHt IHyt] using pair_induction.
  - simpl; tauto.
  - rewrite replace_single. auto.
  - rewrite replace_pair. destruct ((y =? a) && (z =? b))%N eqn:E.
    + apply andb_true_iff in E. destruct E as [Ey Ez].
      apply N.eqb_eq in Ey, Ez. subst.
      intros [H | [H | H]]; try congruence.
      apply in_or_app. right. apply IHt, H.
    + intros [H | H]; [left; exact H | right; apply IHyt, H].
Qed.

Lemma lstrip_keeps (x : N) (s : pystr) :
  isspace x = false -> In x s -> In x (lstrip s).
Proof.
  intros Hx. induction s as [|y s IH]; [simpl; tauto|].
  simpl. destruct (isspace y) eqn:E; [| auto].
  intros [-> | H]; [congruence | apply IH, H].
Qed.

(** [strip] keeps every code point that is not white space. *)
Lemma strip_keeps (x : N) (s : pystr) :
  isspace x = false -> In x s -> In x (strip s).
Proof.
  intros Hx H. unfold strip, rstrip.
  apply in_rev. rewrite rev_involutive.
  apply lstrip_keeps; [exact Hx|]. apply in_rev. rewrite rev_involutive.
  apply lstrip_keeps; assumption.
Qed.

(** The normalized key can be encoded exactly when the key can. *)
Lemma normalize_key_encodable (k : pystr) :
  utf8_encodable (normalize_key k) = utf8_encodable k.
Proof.
  apply eq_true_iff_eq. unfold utf8_encodable.
  rewrite !forallb_forall. split; intros H x Hx.
  - destruct (is_surrogate x) eqn:E; [| reflexivity].
    assert (Hn : In x (normalize_key k)).
    { unfold normalize_key. apply in_or_app. left.
      assert (isspace x = false /\ x <> CR /\ x <> LF /\ x <> BACKSLASH
              /\ x <> LETTER_n) as [Hs [H1 [H2 [H3 H4]]]].
      { unfold is_surrogate in E. apply andb_true_iff in E.
        destruct E as [E _]. apply N.leb_le in E.
        assert (Hlt : forall n, (n < 55296)%N -> x <> n).
        { intros n Hlt ->. apply (N.lt_irrefl n).
          eapply N.lt_le_trans; eassumption. }
        assert (Hsp : isspace x = false).
        { unfold isspace.
          assert (L : forall n, (n < 55296)%N -> (x <=? n)%N = false).
          { intros n Hn. apply N.leb_gt. eapply N.lt_le_trans; eassumption. }
          assert (Q : forall n, (n < 55296)%N -> (x =? n)%N = false).
          { intros n Hn. apply N.eqb_neq, Hlt, Hn. }
          rewrite !L, !Q by reflexivity.
          rewrite !andb_false_r. reflexivity. }
        repeat split; try exact Hsp; apply Hlt; reflexivity. }
      apply strip_keeps; [exact Hs|].
      apply replace_keeps; [exact H1 | exact H2 |].
      apply replace_keeps; [exact H3 | exact H4 | exact Hx]. }
    specialize (H x Hn). rewrite E in H. discriminate.
  - unfold normalize_key in Hx. apply in_app_or in Hx.
    destruct Hx as [Hx | [<- | []]]; [| reflexivity].
    apply strip_incl, replace_incl in Hx. destruct Hx as [-> | Hx];
      [reflexivity|].
    apply replace_incl in Hx. destruct Hx as [-> | Hx]; [reflexivity|].
    apply H, Hx.
Qed.

Lemma write_ssh_key_ok (k : pystr) (w : world) :
  key_io w = NoFault ->
  utf8_encode_error (normalize_key k) = None ->
  write_ssh_key (JStr k) w
  = (Returned SSH_KEY_FILE, key_written (normalize_key k) w).
Proof.
  destruct w as [cf kf io um lg out err]; simpl; intros -> He.
  unfold write_ssh_key, key_written, bind, ret, key_open_w, key_write,
    key_chmod, log_event, set_key_file; simpl.
  rewrite He. simpl. rewrite <- !app_assoc. reflexivity.
Qed.

Lemma write_ssh_key_not_str (v : json) (w : world) :
  (forall s, v <> JStr s) ->
  write_ssh_key v w = (Raised (no_attribute v "replace"), w).
Proof.
  intros H. destruct v; try reflexivity. destruct (H s); reflexivity.
Qed.

(** A failure of the open leaves [write_ssh_key] as the exception; so
    does a failure of the write or of the chmod, for a key that can be
    encoded. *)
Lemma write_ssh_key_fault (k : pystr) (w : world) (e : exn) :
  key_io w = OpenFault e
  \/ utf8_encode_error (normalize_key k) = None
     /\ (key_io w = WriteFault e \/ key_io w = ChmodFault e) ->
  exists w', write_ssh_key (JStr k) w = (Raised e, w')
             /\ stdout w' = stdout w /\ stderr w' = stderr w.
Proof.
  destruct w as [cf kf io um lg out err]; simpl.
  unfold write_ssh_key, bind, ret, key_open_w, key_write, key_chmod; simpl.
  intros [-> | [He [-> | ->]]]; simpl; try rewrite He; simpl; eauto.
Qed.

(** A key that cannot be encoded: the file has been opened, nothing is
    written to it and its permission bits are not changed. *)
Lemma write_ssh_key_unencodable (k : pystr) (w : world) (e : exn) :
  utf8_encode_error (normalize_key k) = Some e ->
  (forall e', key_io w <> OpenFault e') ->
  write_ssh_key (JStr k) w
  = (Raised e,
     World (context_file w)
           (Some (File [] (match key_file w with
                           | Some f => mode f
                           | None => N.ldiff 438 (umask w)
                           end)))
           (key_io w) (umask w) (fs_log w ++ [EvOpenW SSH_KEY_FILE])
           (stdout w) (stderr w)).
Proof.
  destruct w as [cf kf io um lg out err]; simpl. intros He Hio.
  unfold write_ssh_key, bind, ret, key_open_w, key_write, key_chmod,
    log_event, set_key_file; simpl.
  destruct io as [| e' | e' | e']; try (destruct (Hio e'); reflexivity);
    simpl; rewrite He; reflexivity.
Qed.

(** [write_ssh_key] returns only for a string that can be encoded,
    without a fault. *)
Lemma write_ssh_key_returned (v : json) (w w' : world) (p : pystr) :
  write_ssh_key v w = (Returned p, w') ->
  exists k, v = JStr k /\ key_io w = NoFault /\ p = SSH_KEY_FILE
            /\ w' = key_written (normalize_key k) w.
Proof.
  intros H.
  destruct v as [| b | z | f | k | l | d];
    try (rewrite write_ssh_key_not_str in H by discriminate; discriminate).
  exists k.
  destruct (utf8_encode_error (normalize_key k)) as [e |] eqn:He.
  - destruct (key_io w) as [| e' | e' | e'] eqn:E;
      try (rewrite (write_ssh_key_unencodable _ _ _ He) in H
             by (rewrite E; discriminate); discriminate).
    destruct (write_ssh_key_fault k w e') as [w1 [H1 _]]; [auto|]; congruence.
  - destruct (key_io w) eqn:E.
    + rewrite write_ssh_key_ok in H by assumption.
      injection H as <- <-. auto.
    + destruct (write_ssh_key_fault k w e) as [w1 [H1 _]]; [auto|]; congruence.
    + destruct (write_ssh_key_fault k w e) as [w1 [H1 _]]; [auto|]; congruence.
    + destruct (write_ssh_key_fault k w e) as [w1 [H1 _]]; [auto|]; congruence.
Qed.

(** A returned [write_ssh_key] has written a text that can be encoded. *)
Lemma write_ssh_key_returned_encodable (k p : pystr) (w w' : world) :
  write_ssh_key (JStr k) w = (Returned p, w') ->
  utf8_encode_error (normalize_key k) = None.
Proof.
  intros H.
  destruct (utf8_encode_error (normalize_key k)) as [e |] eqn:He;
    [| reflexivity].
  destruct (key_io w) as [| e' | e' | e'] eqn:E;
    try (rewrite (write_ssh_key_unencodable _ _ _ He) in H
           by (rewrite E; discriminate); discriminate).
  destruct (write_ssh_key_fault k w e') as [w1 [H1 _]]; [auto|]; congruence.
Qed.

(** ** Loading the context *)

(** Runs [get_inventory] up to the decoding of the context file, whose
    state is given by [H]. *)
Ltac run_context H :=
  unfold get_inventory, bind, context_exists, try_except, json_load_context,
    bind, read_context;
  rewrite H; cbn [negb]; cbv beta iota; rewrite H; cbv beta iota.

Lemma get_inventory_absent (w : world) :
  context_file w = Absent ->
  get_inventory w = (Returned empty_inventory, w).
Proof.
  intros H. unfold get_inventory, bind, context_exists.
  rewrite H. reflexivity.
Qed.

Lemma get_inventory_unreadable (w : world) (msg : pystr) :
  context_file w = Unreadable msg ->
  get_inventory w
  = (Returned empty_inventory, put_stderr (load_diagnostic msg) w).
Proof.
  intros H.
  run_context H. reflexivity.
Qed.

Lemma get_inventory_undecodable (w : world) (msg : pystr) :
  context_file w = Undecodable msg ->
  get_inventory w = (Raised (Exn UnicodeDecodeError msg), w).
Proof.
  intros H.
  run_context H. reflexivity.
Qed.

(** On a readable context, [get_inventory] follows the decoder. *)
Lemma get_inventory_text (w : world) (t : pystr) :
  context_file w = Text t ->
  get_inventory w =
  match json_loads t with
  | Returned ctx => build_inventory ctx w
  | Raised e =>
      if load_errors (exn_type e)
      then (Returned empty_inventory, put_stderr (load_diagnostic (exn_msg e)) w)
      else (Raised e, w)
  end.
Proof.
  intros H.
  run_context H.
  destruct (json_loads t) as [ctx | e]; [reflexivity|].
  destruct (load_errors (exn_type e)); reflexivity.
Qed.

Lemma build_inventory_not_dict (v : json) (w : world) :
  (forall d, v <> JObj d) ->
  build_inventory v w = (Raised (no_attribute v "get"), w).
Proof.
  intros H. destruct v; try reflexivity. destruct (H d); reflexivity.
Qed.

Lemma connection_not_dict (ctx : dict) (w : world) :
  (forall c, context_connection ctx <> JObj c) ->
  build_inventory (JObj ctx) w
  = (Raised (no_attribute (context_connection ctx) "get"), w).
Proof.
  intros H. unfold build_inventory, bind, py_get at 1 2 3 4, ret.
  change (dict_get ctx (str "ssh_connection")
            (dict_get ctx (str "connection") (JObj [])))
    with (context_connection ctx).
  destruct (context_connection ctx); try reflexivity.
  destruct (H d); reflexivity.
Qed.

(** On a context object whose connection is an object, the only step of
    [get_inventory] that can raise is the writing of the key. *)
Lemma build_inventory_dict (ctx c : dict) (w : world) :
  context_connection ctx = JObj c ->
  build_inventory (JObj ctx) w =
  let private_key := dict_get c (str "private_key") (JStr []) in
  let doc := inventory_doc (context_host_name ctx) (connection_hostvars c) in
  if truthy private_key then
    match write_ssh_key private_key w with
    | (Returned _, w') => (Returned doc, w')
    | (Raised e, w') => (Raised e, w')
    end
  else (Returned doc, w).
Proof.
  intros H. unfold build_inventory, bind, py_get at 1 2 3 4, ret.
  change (dict_get ctx (str "ssh_connection")
            (dict_get ctx (str "connection") (JObj [])))
    with (context_connection ctx).
  rewrite H. unfold py_get, ret. cbv zeta.
  assert (Hdoc :
    (if truthy (dict_get c (str "password") (JStr []))
     then dict_set
            [ (str "ansible_host", dict_get c (str "host") (JStr []));
              (str "ansible_port", dict_get c (str "port") (JInt 22));
              (str "ansible_user", dict_get c (str "user") (JStr (str "root")));
              (str "ansible_ssh_private_key_file", JStr (str "/tmp/dockflow_key"));
              (str "ansible_ssh_common_args",
               JStr (str "-o StrictHostKeyChecking=no -o UserKnownHostsFile=/dev/null")) ]
            (str "ansible_become_password")
            (dict_get c (str "password") (JStr []))
     else
            [ (str "ansible_host", dict_get c (str "host") (JStr []));
              (str "ansible_port", dict_get c (str "port") (JInt 22));
              (str "ansible_user", dict_get c (str "user") (JStr (str "root")));
              (str "ansible_ssh_private_key_file", JStr (str "/tmp/dockflow_key"));
              (str "ansible_ssh_common_args",
               JStr (str "-o StrictHostKeyChecking=no -o UserKnownHostsFile=/dev/null")) ])
    = connection_hostvars c).
  { unfold connection_hostvars. cbv zeta.
    destruct (truthy (dict_get c (str "password") (JStr []))); reflexivity. }
  destruct (truthy (dict_get c (str "private_key") (JStr []))).
  - destruct (write_ssh_key (dict_get c (str "private_key") (JStr [])) w)
      as [[p | e] w']; [| reflexivity].
    cbv beta iota. rewrite Hdoc. reflexivity.
  - cbv beta iota. rewrite Hdoc. reflexivity.
Qed.

Lemma key_usable_run (w : world) (c : dict) :
  key_usable w c ->
  let private_key := dict_get c (str "private_key") (JStr []) in
  truthy private_key = false
  \/ exists k, private_key = JStr k /\ truthy private_key = true
               /\ write_ssh_key private_key w
                  = (Returned SSH_KEY_FILE, key_written (normalize_key k) w).
Proof.
  unfold key_usable. cbv zeta.
  destruct (truthy (dict_get c (str "private_key") (JStr []))) eqn:E; auto.
  intros [H | [[k [Hk Hen]] Hio]]; [discriminate|].
  right. exists k. rewrite Hk. repeat split.
  apply write_ssh_key_ok; [exact Hio|].
  apply utf8_encode_error_none. rewrite normalize_key_encodable. exact Hen.
Qed.

(** A context object with an object for connection and a usable key
    yields the inventory of its host. *)
Lemma get_inventory_typed (w : world) (t : pystr) (ctx c : dict) :
  context_file w = Text t ->
  json_loads t = Returned (JObj ctx) ->
  context_connection ctx = JObj c ->
  key_usable w c ->
  exists w',
    get_inventory w
    = (Returned (inventory_doc (context_host_name ctx) (connection_hostvars c)),
       w')
    /\ (w' = w
        \/ exists k, dict_get c (str "private_key") (JStr []) = JStr k
                     /\ k <> [] /\ w' = key_written (normalize_key k) w).
Proof.
  intros Hf Hl Hc Hk.
  rewrite (get_inventory_text _ _ Hf), Hl, (build_inventory_dict _ _ _ Hc).
  cbv zeta.
  destruct (key_usable_run _ _ Hk) as [E | [k [Ek [E Hw]]]]; rewrite E.
  - exists w; auto.
  - rewrite Hw. eexists; split; [reflexivity|].
    right. exists k. repeat split; auto.
    intros ->. rewrite Ek in E. discriminate.
Qed.

(** What [get_inventory] returns is the empty inventory or the inventory
    of one host. *)
Lemma get_inventory_shape (w w' : world) (inv : json) :
  get_inventory w = (Returned inv, w') ->
  inv = empty_inventory \/ exists host hv, inv = inventory_doc host hv.
Proof.
  destruct (context_file w) as [| msg | msg | t] eqn:Hf.
  - rewrite (get_inventory_absent _ Hf). intros [= <- _]; auto.
  - rewrite (get_inventory_unreadable _ _ Hf). intros [= <- _]; auto.
  - rewrite (get_inventory_undecodable _ _ Hf). discriminate.
  - rewrite (get_inventory_text _ _ Hf).
    destruct (json_loads t) as [v | e].
    + destruct v as [| b | z | f | s | l | ctx];
        try (rewrite build_inventory_not_dict by discriminate; discriminate).
      destruct (context_connection ctx) as [| b | z | f | s | l | c] eqn:Hc;
        try (rewrite connection_not_dict by (rewrite Hc; discriminate);
             discriminate).
      rewrite (build_inventory_dict _ _ _ Hc). cbv zeta.
      destruct (truthy _).
      * destruct (write_ssh_key _ w) as [[p | e] w1]; [| discriminate].
        intros [= <- _]; eauto.
      * intros [= <- _]; eauto.
    + destruct (load_errors (exn_type e)); [| discriminate].
      intros [= <- _]; auto.
Qed.

(** ** Dispatch *)

Lemma main_list (prog : pystr) (w : world) :
  main [prog; str "--list"] w =
  match get_inventory w with
  | (Returned inv, w') => (Returned tt, put_stdout inv w')
  | (Raised e, w') => (Raised e, w')
  end.
Proof.
  unfold main, bind, print_json. cbn [List.length Nat.eqb nth andb].
  rewrite pystr_eqb_refl.
  destruct (get_inventory w) as [[inv | e] w']; reflexivity.
Qed.

Lemma main_host (prog name : pystr) (w : world) :
  main [prog; str "--host"; name] w =
  match get_inventory w with
  | (Returned inv, w') =>
      match (meta <- py_get inv (str "_meta") (JObj []) ;;
             all_hostvars <- py_get meta (str "hostvars") (JObj []) ;;
             py_get all_hostvars name (JObj [])) w' with
      | (Returned hostvars, w'') => (Returned tt, put_stdout hostvars w'')
      | (Raised e, w'') => (Raised e, w'')
      end
  | (Raised e, w') => (Raised e, w')
  end.
Proof.
  unfold main. cbn [List.length Nat.eqb nth andb].
  replace (pystr_eqb (str "--host") (str "--list")) with false by reflexivity.
  rewrite pystr_eqb_refl. cbv iota.
  unfold bind at 1.
  destruct (get_inventory w) as [[inv | e] w']; [| reflexivity].
  unfold bind, print_json.
  destruct (py_get inv (str "_meta") (JObj []) w') as [[meta | e] w1]; [| reflexivity].
  destruct (py_get meta (str "hostvars") (JObj []) w1) as [[hv | e] w2]; [| reflexivity].
  destruct hv; reflexivity.
Qed.

(** Every argument list other than [--list] and [--host name] takes the
    last branch of [main], which is the first one again. *)
Lemma main_default (prog : pystr) (args : list pystr) (w : world) :
  args <> [str "--list"] ->
  (forall name, args <> [str "--host"; name]) ->
  main (prog :: args) w = main [prog; str "--list"] w.
Proof.
  intros Hlist Hhost. rewrite main_list. unfold main.
  assert (E1 : ((List.length (prog :: args) =? 2)%nat
                && pystr_eqb (nth 1 (prog :: args) []) (str "--list")) = false).
  { destruct args as [| a [| b args]]; try reflexivity.
    cbn [List.length Nat.eqb nth andb].
    destruct (pystr_eqb a (str "--list")) eqn:E; [| reflexivity].
    apply pystr_eqb_eq in E. subst. congruence. }
  assert (E2 : ((List.length (prog :: args) =? 3)%nat
                && pystr_eqb (nth 1 (prog :: args) []) (str "--host")) = false).
  { destruct args as [| a [| b [| c args]]]; try reflexivity.
    cbn [List.length Nat.eqb nth andb].
    destruct (pystr_eqb a (str "--host")) eqn:E; [| reflexivity].
    apply pystr_eqb_eq in E. subst. destruct (Hhost b). reflexivity. }
  rewrite E1, E2. unfold bind, print_json.
  destruct (get_inventory w) as [[inv | e] w']; reflexivity.
Qed.

Lemma host_record_empty (name : pystr) (w : world) :
  (meta <- py_get empty_inventory (str "_meta") (JObj []) ;;
   all_hostvars <- py_get meta (str "hostvars") (JObj []) ;;
   py_get all_hostvars name (JObj [])) w = (Returned (JObj []), w).
Proof. reflexivity. Qed.

Lemma host_record_doc (host name : pystr) (hv : dict) (w : world) :
  (meta <- py_get (inventory_doc host hv) (str "_meta") (JObj []) ;;
   all_hostvars <- py_get meta (str "hostvars") (JObj []) ;;
   py_get all_hostvars name (JObj [])) w
  = (Returned (if pystr_eqb host name then JObj hv else JObj []), w).
Proof.
  unfold inventory_doc, bind, py_get, ret, dict_get.
  replace (dict_lookup _ (str "_meta")) with
    (Some (JObj [(str "hostvars", JObj [(host, JObj hv)])])) by reflexivity.
  cbv beta iota.
  replace (dict_lookup _ (str "hostvars")) with
    (Some (JObj [(host, JObj hv)])) by reflexivity.
  cbv beta iota. cbn [dict_lookup].
  destruct (pystr_eqb host name); reflexivity.
Qed.

Lemma main_returns (argv : list pystr) (w w' : world) (inv : json) :
  get_inventory w = (Returned inv, w') ->
  exists doc, main argv w = (Returned tt, put_stdout doc w').
Proof.
  intros H.
  assert (Hlist : forall prog,
            main [prog; str "--list"] w = (Returned tt, put_stdout inv w')).
  { intros prog. rewrite main_list, H. reflexivity. }
  destruct argv as [| prog args].
  - exists inv. unfold main, bind, print_json. cbn [List.length Nat.eqb andb].
    rewrite H. reflexivity.
  - destruct args as [| a [| b [| c args]]].
    + exists inv. rewrite main_default by discriminate. apply Hlist.
    + destruct (pystr_eqb a (str "--list")) eqn:E.
      * apply pystr_eqb_eq in E. subst. eauto.
      * exists inv. rewrite main_default; [apply Hlist | |discriminate].
        intros [= ->]. discriminate.
    + destruct (pystr_eqb a (str "--host")) eqn:E.
      * apply pystr_eqb_eq in E. subst. rewrite main_host, H.
        destruct (get_inventory_shape _ _ _ H) as [-> | [host [hv ->]]].
        -- rewrite host_record_empty. eauto.
        -- rewrite host_record_doc. eauto.
      * exists inv. rewrite main_default; [apply Hlist | discriminate |].
        intros name [= -> _]. rewrite pystr_eqb_refl in E. discriminate.
    + exists inv. rewrite main_default by discriminate. apply Hlist.
Qed.

Lemma main_raises (argv : list pystr) (w w' : world) (e : exn) :
  get_inventory w = (Raised e, w') -> main argv w = (Raised e, w').
Proof.
  intros H. unfold main.
  destruct (_ && _); [| destruct (_ && _)]; unfold bind; rewrite H; reflexivity.
Qed.

Lemma become_password_lookup (c : dict) :
  dict_lookup (connection_hostvars c) (str "ansible_become_password")
  = match dict_lookup c (str "password") with
    | Some p => if truthy p then Some p else None
    | None => None
    end.
Proof.
  unfold connection_hostvars, dict_get. cbv zeta.
  destruct (dict_lookup c (str "password")) as [p |].
  - destruct (truthy p); reflexivity.
  - reflexivity.
Qed.

(** ** What the script leaves as it was *)

(** Whatever its outcome, [write_ssh_key] touches nothing but the key file
    and the log of its changes. *)
Lemma write_ssh_key_frame (v : json) (w : world) :
  let w' := snd (write_ssh_key v w) in
  context_file w' = context_file w /\ key_io w' = key_io w
  /\ umask w' = umask w /\ stdout w' = stdout w /\ stderr w' = stderr w
  /\ exists evs, fs_log w' = fs_log w ++ evs.
Proof.
  assert (Hid : context_file w = context_file w /\ key_io w = key_io w
                /\ umask w = umask w /\ stdout w = stdout w
                /\ stderr w = stderr w
                /\ exists evs, fs_log w = fs_log w ++ evs).
  { repeat split. exists []. symmetry. apply app_nil_r. }
  destruct v as [| b | z | f | k | l | d]; try exact Hid.
  destruct w as [cf kf io um lg out err].
  unfold write_ssh_key, bind, ret, key_open_w, key_write, key_chmod,
    log_event, set_key_file.
  destruct (utf8_encode_error (normalize_key k)), io; simpl;
    repeat split; try (rewrite <- !app_assoc); eauto;
    exists []; symmetry; apply app_nil_r.
Qed.

Lemma build_inventory_frame (ctx : json) (w : world) :
  let w' := snd (build_inventory ctx w) in
  context_file w' = context_file w /\ key_io w' = key_io w
  /\ umask w' = umask w /\ stdout w' = stdout w /\ stderr w' = stderr w
  /\ exists evs, fs_log w' = fs_log w ++ evs.
Proof.
  assert (Hid : context_file w = context_file w /\ key_io w = key_io w
                /\ umask w = umask w /\ stdout w = stdout w
                /\ stderr w = stderr w
                /\ exists evs, fs_log w = fs_log w ++ evs).
  { repeat split. exists []. symmetry. apply app_nil_r. }
  destruct ctx as [| b | z | f | s | l | ctx];
    try (rewrite build_inventory_not_dict by discriminate; exact Hid).
  destruct (context_connection ctx) as [| b | z | f | s | l | c] eqn:Hc;
    try (rewrite connection_not_dict by (rewrite Hc; discriminate);
         exact Hid).
  rewrite (build_inventory_dict _ _ _ Hc). cbv zeta.
  destruct (truthy _); [| exact Hid].
  pose proof (write_ssh_key_frame
                (dict_get c (str "private_key") (JStr [])) w) as H.
  cbv zeta in H.
  destruct (write_ssh_key _ w) as [[p | e] w1]; exact H.
Qed.

(** The world after [main] is the world after [get_inventory], with one
    document more on the standard output when [main] returns. *)
Lemma main_world (argv : list pystr) (w : world) :
  match get_inventory w with
  | (Returned _, w1) =>
      exists doc, main argv w = (Returned tt, put_stdout doc w1)
  | (Raised e, w1) => main argv w = (Raised e, w1)
  end.
Proof.
  destruct (get_inventory w) as [[inv | e] w1] eqn:H.
  - eapply main_returns, H.
  - apply main_raises, H.
Qed.

Lemma get_inventory_keeps (w : world) :
  let w' := snd (get_inventory w) in
  context_file w' = context_file w /\ key_io w' = key_io w
  /\ umask w' = umask w /\ stdout w' = stdout w
  /\ exists evs, fs_log w' = fs_log w ++ evs.
Proof.
  assert (Hnil : exists evs, fs_log w = fs_log w ++ evs).
  { exists []. symmetry. apply app_nil_r. }
  cbv zeta. destruct (context_file w) as [| msg | msg | t] eqn:Hf.
  - rewrite (get_inventory_absent _ Hf). simpl. auto.
  - rewrite (get_inventory_unreadable _ _ Hf). simpl. auto.
  - rewrite (get_inventory_undecodable _ _ Hf). simpl. auto.
  - rewrite (get_inventory_text _ _ Hf).
    destruct (json_loads t) as [ctx | e].
    + pose proof (build_inventory_frame ctx w) as H. cbv zeta in H.
      rewrite Hf in H. tauto.
    + destruct (load_errors (exn_type e)); simpl; auto.
Qed.

(** ** The properties of the specification *)

(** C1 (as amended).  [get_inventory] returns the empty inventory and
    leaves the world as it was when the context file is missing; it
    returns the empty inventory after adding one line, "Error reading
    context file: " and the message, to the error stream when reading the
    file raises an OSError or decoding it raises one of the exceptions the
    handler names; on a context object whose connection is an object and
    whose key is usable it returns the inventory of the host and adds
    nothing to the error stream.  A context that decodes to a value that
    is not an object makes it raise an AttributeError. *)
Theorem get_inventory_failures_internalized (w : world) :
  (context_file w = Absent ->
   get_inventory w = (Returned empty_inventory, w))
  /\ (forall msg, context_file w = Unreadable msg ->
      get_inventory w
      = (Returned empty_inventory,
         World (context_file w) (key_file w) (key_io w) (umask w) (fs_log w)
               (stdout w)
               (stderr w ++ [Line (str "Error reading context file: " ++ msg)])))
  /\ (forall t e, context_file w = Text t -> json_loads t = Raised e ->
      load_errors (exn_type e) = true ->
      get_inventory w
      = (Returned empty_inventory,
         World (context_file w) (key_file w) (key_io w) (umask w) (fs_log w)
               (stdout w)
               (stderr w
                ++ [Line (str "Error reading context file: " ++ exn_msg e)])))
  /\ (forall t ctx c, context_file w = Text t ->
      json_loads t = Returned (JObj ctx) ->
      context_connection ctx = JObj c -> key_usable w c ->
      exists w',
        get_inventory w
        = (Returned (inventory_doc (context_host_name ctx)
                                   (connection_hostvars c)), w')
        /\ stderr w' = stderr w)
  /\ (forall t v, context_file w = Text t -> json_loads t = Returned v ->
      (forall d, v <> JObj d) ->
      get_inventory w = (Raised (no_attribute v "get"), w)).
Proof.
  split; [apply get_inventory_absent|].
  split; [apply get_inventory_unreadable|].
  split; [| split].
  - intros t e Hf Hl He. rewrite (get_inventory_text _ _ Hf), Hl, He.
    reflexivity.
  - intros t ctx c Hf Hl Hc Hk.
    destruct (get_inventory_typed _ _ _ _ Hf Hl Hc Hk)
      as [w' [H [-> | [k [_ [_ ->]]]]]]; eauto.
  - intros t v Hf Hl Hv. rewrite (get_inventory_text _ _ Hf), Hl.
    apply build_inventory_not_dict, Hv.
Qed.

(** C2 (as amended).  The file written by [write_ssh_key] ends with
    exactly one line feed, neither a line feed nor a carriage return
    before it; and it holds no carriage return when every carriage return
    of the input is immediately followed by a line feed. *)
Theorem key_file_line_endings (k p : pystr) (w w' : world) :
  write_ssh_key (JStr k) w = (Returned p, w') ->
  exists f, key_file w' = Some f
    /\ one_trailing_newline (content f)
    /\ (cr_paired k = true -> ~ In CR (content f)).
Proof.
  intros H. apply write_ssh_key_returned in H.
  destruct H as [k' [[= <-] [_ [_ ->]]]].
  eexists; split; [reflexivity|]. simpl.
  split; [apply normalize_key_one_newline | apply normalize_key_no_cr].
Qed.

(** C3 (as amended).  [write_ssh_key] writes its input after replacing
    each backslash-n by a line feed, then each CRLF by a line feed, then
    stripping white space at both ends, then appending one line feed.
    The input "line1" backslash-n "line2" followed by a carriage return
    and a line feed is written as "line1" LF "line2" LF; followed instead
    by backslash-r backslash-n it is written as "line1" LF "line2"
    backslash-r LF. *)
Theorem key_file_normalization (k : pystr) (w : world) :
  key_io w = NoFault ->
  utf8_encodable k = true ->
  exists w',
    write_ssh_key (JStr k) w = (Returned SSH_KEY_FILE, w')
    /\ option_map content (key_file w')
       = Some (strip (replace [CR; LF] [LF]
                        (replace [BACKSLASH; LETTER_n] [LF] k)) ++ [LF])
    /\ (k = str "line1" ++ [BACKSLASH; LETTER_n] ++ str "line2" ++ [CR; LF] ->
        option_map content (key_file w')
        = Some (str "line1" ++ [LF] ++ str "line2" ++ [LF]))
    /\ (k = str "line1" ++ [BACKSLASH; LETTER_n] ++ str "line2"
            ++ [BACKSLASH; 114%N; BACKSLASH; LETTER_n] ->
        option_map content (key_file w')
        = Some (str "line1" ++ [LF] ++ str "line2" ++ [BACKSLASH; 114%N; LF])).
Proof.
  intros H He. rewrite (write_ssh_key_ok _ _ H).
  - eexists; split; [reflexivity|].
    split; [reflexivity|]. split; intros ->; reflexivity.
  - apply utf8_encode_error_none. rewrite normalize_key_encodable. exact He.
Qed.

(** C4.  Without a context file [get_inventory] returns exactly
    [{"_meta": {"hostvars": {}}}] and leaves the world, error stream
    included, as it was. *)
Theorem get_inventory_no_context (w : world) :
  context_file w = Absent ->
  get_inventory w
  = (Returned (JObj [(str "_meta", JObj [(str "hostvars", JObj [])])]), w).
Proof. apply get_inventory_absent. Qed.

(** C5.  For a context object whose connection ([ssh_connection], else
    [connection], else an empty object) is an object, the host identifier
    is the env, a hyphen and the server name, with "unknown" and "server"
    for the absent ones; [all.hosts] holds this identifier alone,
    [all.vars] is empty, and host, port and user of the record come from
    that connection. *)
Theorem host_identifier (w : world) (t : pystr) (ctx c : dict) :
  context_file w = Text t ->
  json_loads t = Returned (JObj ctx) ->
  context_connection ctx = JObj c ->
  key_usable w c ->
  exists host hv w',
    get_inventory w
    = (Returned
         (JObj [ (str "all", JObj [ (str "hosts", JArr [JStr host]);
                                    (str "vars", JObj []) ]);
                 (str "_meta", JObj [ (str "hostvars",
                                       JObj [(host, JObj hv)]) ]) ]), w')
    /\ host = format_value (dict_get ctx (str "env") (JStr (str "unknown")))
              ++ str "-"
              ++ format_value (dict_get ctx (str "server_name")
                                        (JStr (str "server")))
    /\ (forall env server_name,
          dict_get ctx (str "env") (JStr (str "unknown")) = JStr env ->
          dict_get ctx (str "server_name") (JStr (str "server"))
          = JStr server_name ->
          host = env ++ str "-" ++ server_name)
    /\ (dict_lookup ctx (str "env") = None ->
        dict_lookup ctx (str "server_name") = None ->
        host = str "unknown-server")
    /\ dict_lookup hv (str "ansible_host")
       = Some (dict_get c (str "host") (JStr []))
    /\ dict_lookup hv (str "ansible_port")
       = Some (dict_get c (str "port") (JInt 22))
    /\ dict_lookup hv (str "ansible_user")
       = Some (dict_get c (str "user") (JStr (str "root"))).
Proof.
  intros Hf Hl Hc Hk.
  destruct (get_inventory_typed _ _ _ _ Hf Hl Hc Hk) as [w' [H _]].
  exists (context_host_name ctx), (connection_hostvars c), w'.
  split; [exact H|]. split; [reflexivity|].
  split; [| split].
  - intros env server_name He Hs. unfold context_host_name.
    rewrite He, Hs. reflexivity.
  - intros He Hs. unfold context_host_name, dict_get.
    rewrite He, Hs. reflexivity.
  - repeat split; reflexivity.
Qed.

(** C6.  On such a context the hostvars record has the key
    [ansible_become_password] exactly when the connection has a password
    that is true (for a string: not empty), and the value is then that
    password. *)
Theorem become_password_iff (w : world) (t : pystr) (ctx c : dict) :
  context_file w = Text t ->
  json_loads t = Returned (JObj ctx) ->
  context_connection ctx = JObj c ->
  key_usable w c ->
  exists host hv w',
    get_inventory w = (Returned (inventory_doc host hv), w')
    /\ (forall v,
          dict_lookup hv (str "ansible_become_password") = Some v
          <-> dict_lookup c (str "password") = Some v /\ truthy v = true)
    /\ (forall s,
          dict_lookup c (str "password") = Some (JStr s) ->
          (dict_lookup hv (str "ansible_become_password") = Some (JStr s)
           <-> s <> []))
    /\ (dict_lookup c (str "password") = None ->
        dict_lookup hv (str "ansible_become_password") = None).
Proof.
  intros Hf Hl Hc Hk.
  destruct (get_inventory_typed _ _ _ _ Hf Hl Hc Hk) as [w' [H _]].
  exists (context_host_name ctx), (connection_hostvars c), w'.
  split; [exact H|]. rewrite become_password_lookup.
  split; [| split].
  - intros v. destruct (dict_lookup c (str "password")) as [p |].
    + destruct (truthy p) eqn:E.
      * split; [intros [= <-]; auto | intros [[= <-] _]; reflexivity].
      * split; [discriminate | intros [[= <-] E']; congruence].
    + split; [discriminate | intros [? _]; discriminate].
  - intros s ->. destruct s as [| x s]; simpl.
    + split; [discriminate | intros []; reflexivity].
    + split; [discriminate | reflexivity].
  - intros ->. reflexivity.
Qed.

(** C7.  With the arguments [--host name], [main] adds to the standard
    output the hostvars record of that host, or an empty object when the
    name is not the host of the inventory or the inventory is empty; with
    [--list] it adds the inventory; in both cases that one document and
    nothing else.  With any other arguments, none included, it does what
    it does with [--list].  It prints nothing when [get_inventory]
    raises. *)
Theorem main_dispatch (prog : pystr) (w : world) :
  (forall inv w', get_inventory w = (Returned inv, w') ->
     let printed doc :=
       World (context_file w') (key_file w') (key_io w') (umask w')
             (fs_log w') (stdout w ++ [doc]) (stderr w') in
     main [prog; str "--list"] w = (Returned tt, printed inv)
     /\ (inv = empty_inventory \/ exists host hv, inv = inventory_doc host hv)
     /\ (inv = empty_inventory -> forall name,
         main [prog; str "--host"; name] w = (Returned tt, printed (JObj [])))
     /\ (forall host hv, inv = inventory_doc host hv ->
         main [prog; str "--host"; host] w = (Returned tt, printed (JObj hv))
         /\ forall name, name <> host ->
            main [prog; str "--host"; name] w
            = (Returned tt, printed (JObj []))))
  /\ (forall args, args <> [str "--list"] ->
      (forall name, args <> [str "--host"; name]) ->
      main (prog :: args) w = main [prog; str "--list"] w)
  /\ (forall args e w', get_inventory w = (Raised e, w') ->
      main (prog :: args) w = (Raised e, w')
      /\ stdout w' = stdout w).
Proof.
  split; [| split].
  - intros inv w' H printed.
    assert (Hout : stdout w' = stdout w).
    { pose proof (get_inventory_keeps w) as K. cbv zeta in K.
      rewrite H in K. apply K. }
    assert (Hp : forall doc, put_stdout doc w' = printed doc).
    { intros doc. unfold put_stdout, printed. rewrite Hout. reflexivity. }
    split; [rewrite main_list, H, Hp; reflexivity|].
    split; [exact (get_inventory_shape _ _ _ H)|].
    split.
    + intros -> name.
      rewrite main_host, H, host_record_empty, Hp. reflexivity.
    + intros host hv ->. split.
      * rewrite main_host, H, host_record_doc, pystr_eqb_refl, Hp.
        reflexivity.
      * intros name Hn. rewrite main_host, H, host_record_doc, Hp.
        destruct (pystr_eqb host name) eqn:E; [| reflexivity].
        apply pystr_eqb_eq in E. congruence.
  - intros args. apply main_default.
  - intros args e w' H. split; [apply main_raises, H|].
    pose proof (get_inventory_keeps w) as K. cbv zeta in K.
    rewrite H in K. apply K.
Qed.

Lemma script_returns (argv : list pystr) (w w' : world) (inv : json) :
  get_inventory w = (Returned inv, w') -> fst (script argv w) = 0%N.
Proof.
  intros H. destruct (main_returns argv _ _ _ H) as [doc Hm].
  unfold script. rewrite Hm. reflexivity.
Qed.

(** C8 (as amended).  When the open of the key file fails, or, for a key
    that can be encoded, its write or its chmod, the exception leaves
    [write_ssh_key], [get_inventory] and [main]; a key that cannot be
    encoded makes the write raise a UnicodeEncodeError, which leaves them
    the same way.  The exit status is then 1, nothing is printed and the
    traceback is added to the error stream.  The exit status is 0 when the
    context file is missing, when reading or decoding it raises an
    exception the handler names, and on a context object whose connection
    is an object and whose key is usable. *)
Theorem exit_status (argv : list pystr) (w : world) :
  (forall t ctx c k e, context_file w = Text t ->
     json_loads t = Returned (JObj ctx) ->
     context_connection ctx = JObj c ->
     dict_get c (str "private_key") (JStr []) = JStr k -> k <> [] ->
     key_io w = OpenFault e
     \/ utf8_encodable k = true
        /\ (key_io w = WriteFault e \/ key_io w = ChmodFault e) ->
     exists w',
       write_ssh_key (JStr k) w = (Raised e, w')
       /\ get_inventory w = (Raised e, w')
       /\ main argv w = (Raised e, w')
       /\ fst (script argv w) = 1%N
       /\ stdout (snd (script argv w)) = stdout w
       /\ stderr (snd (script argv w)) = stderr w ++ [Traceback e])
  /\ (forall t ctx c k, context_file w = Text t ->
      json_loads t = Returned (JObj ctx) ->
      context_connection ctx = JObj c ->
      dict_get c (str "private_key") (JStr []) = JStr k ->
      utf8_encodable k = false ->
      (forall e', key_io w <> OpenFault e') ->
      exists msg w',
        get_inventory w = (Raised (Exn UnicodeEncodeError msg), w')
        /\ fst (script argv w) = 1%N
        /\ stdout (snd (script argv w)) = stdout w
        /\ stderr (snd (script argv w))
           = stderr w ++ [Traceback (Exn UnicodeEncodeError msg)])
  /\ (context_file w = Absent -> fst (script argv w) = 0%N)
  /\ (forall msg, context_file w = Unreadable msg ->
      fst (script argv w) = 0%N)
  /\ (forall t e, context_file w = Text t -> json_loads t = Raised e ->
      load_errors (exn_type e) = true -> fst (script argv w) = 0%N)
  /\ (forall t ctx c, context_file w = Text t ->
      json_loads t = Returned (JObj ctx) ->
      context_connection ctx = JObj c -> key_usable w c ->
      fst (script argv w) = 0%N).
Proof.
  assert (Hrun : forall e w', get_inventory w = (Raised e, w') ->
            stdout w' = stdout w -> stderr w' = stderr w ->
            main argv w = (Raised e, w')
            /\ fst (script argv w) = 1%N
            /\ stdout (snd (script argv w)) = stdout w
            /\ stderr (snd (script argv w)) = stderr w ++ [Traceback e]).
  { intros e w' Hg Ho He.
    pose proof (main_raises argv _ _ _ Hg) as Hm.
    split; [exact Hm|]. unfold script. rewrite Hm. simpl.
    rewrite Ho, He. auto. }
  split; [| split; [| split; [| split; [| split]]]].
  - intros t ctx c k e Hf Hl Hc Hk Hne Hio.
    assert (Hio' : key_io w = OpenFault e
                   \/ utf8_encode_error (normalize_key k) = None
                      /\ (key_io w = WriteFault e \/ key_io w = ChmodFault e)).
    { destruct Hio as [Hio | [Hen Hio]]; [auto|]. right. split; [| exact Hio].
      apply utf8_encode_error_none. rewrite normalize_key_encodable.
      exact Hen. }
    destruct (write_ssh_key_fault k w e Hio') as [w' [Hw [Ho He]]].
    exists w'.
    assert (Hg : get_inventory w = (Raised e, w')).
    { rewrite (get_inventory_text _ _ Hf), Hl, (build_inventory_dict _ _ _ Hc).
      cbv zeta. rewrite Hk.
      destruct k as [| x k]; [congruence|].
      cbn [truthy]. rewrite Hw. reflexivity. }
    split; [exact Hw|]. split; [exact Hg|]. apply (Hrun _ _ Hg Ho He).
  - intros t ctx c k Hf Hl Hc Hk Hen Hio.
    assert (Hn : utf8_encodable (normalize_key k) = false)
      by (rewrite normalize_key_encodable; exact Hen).
    destruct (utf8_encode_error_some _ Hn) as [msg Hmsg].
    exists msg. eexists.
    assert (Hg : get_inventory w
                 = (Raised (Exn UnicodeEncodeError msg),
                    World (context_file w)
                      (Some (File [] (match key_file w with
                                      | Some f => mode f
                                      | None => N.ldiff 438 (umask w)
                                      end)))
                      (key_io w) (umask w)
                      (fs_log w ++ [EvOpenW SSH_KEY_FILE])
                      (stdout w) (stderr w))).
    { rewrite (get_inventory_text _ _ Hf), Hl, (build_inventory_dict _ _ _ Hc).
      cbv zeta. rewrite Hk.
      destruct k as [| x k]; [discriminate|].
      cbn [truthy]. rewrite (write_ssh_key_unencodable _ _ _ Hmsg Hio).
      reflexivity. }
    split; [exact Hg|]. apply (Hrun _ _ Hg); reflexivity.
  - intros Hf. eapply script_returns, get_inventory_absent, Hf.
  - intros msg Hf. eapply script_returns, get_inventory_unreadable, Hf.
  - intros t e Hf Hl He. eapply script_returns.
    rewrite (get_inventory_text _ _ Hf), Hl, He. reflexivity.
  - intros t ctx c Hf Hl Hc Hk.
    destruct (get_inventory_typed _ _ _ _ Hf Hl Hc Hk) as [w' [H _]].
    eapply script_returns, H.
Qed.

(** C9.  When [write_ssh_key] returns, the key file has the permission
    bits 0o600, none of them for group or others, and the change of the
    bits is the last change made to the file system, after the write of
    the content. *)
Theorem key_file_permissions (private_key : json) (p : pystr) (w w' : world) :
  write_ssh_key private_key w = (Returned p, w') ->
  (exists f, key_file w' = Some f
     /\ mode f = N.lor S_IRUSR S_IWUSR
     /\ mode f = 384%N
     /\ N.land (mode f) 63 = 0%N)
  /\ exists data,
       fs_log w' = fs_log w ++ [ EvOpenW SSH_KEY_FILE;
                                 EvWrite SSH_KEY_FILE data;
                                 EvChmod SSH_KEY_FILE 384 ].
Proof.
  intros H. apply write_ssh_key_returned in H.
  destruct H as [k [_ [_ [_ ->]]]]. split.
  - eexists; split; [reflexivity|]. repeat split; reflexivity.
  - eexists. reflexivity.
Qed.

(** C10.  When the connection has no [private_key], or an empty one,
    [get_inventory] leaves the key file, content and permission bits, as
    it was and changes nothing in the file system, and the record it
    returns still names /tmp/dockflow_key as the private key file. *)
Theorem no_key_no_write (w : world) (t : pystr) (ctx c : dict) :
  context_file w = Text t ->
  json_loads t = Returned (JObj ctx) ->
  context_connection ctx = JObj c ->
  dict_lookup c (str "private_key") = None
  \/ dict_lookup c (str "private_key") = Some (JStr []) ->
  exists host hv w',
    get_inventory w = (Returned (inventory_doc host hv), w')
    /\ key_file w' = key_file w
    /\ fs_log w' = fs_log w
    /\ dict_lookup hv (str "ansible_ssh_private_key_file")
       = Some (JStr (str "/tmp/dockflow_key")).
Proof.
  intros Hf Hl Hc Hk.
  assert (E : dict_get c (str "private_key") (JStr []) = JStr []).
  { unfold dict_get. destruct Hk as [-> | ->]; reflexivity. }
  exists (context_host_name ctx), (connection_hostvars c), w.
  rewrite (get_inventory_text _ _ Hf), Hl, (build_inventory_dict _ _ _ Hc).
  cbv zeta. rewrite E. cbn [truthy].
  repeat split; reflexivity.
Qed.

(** ** More on the normalization of the key *)

Lemma has_pair_tail (a b x : N) (t : pystr) :
  has_pair a b (x :: t) = false -> has_pair a b t = false.
Proof. simpl; intros H; apply orb_false_iff in H; tauto. Qed.

Lemma has_pair_absent (a b : N) (s : pystr) :
  ~ In a s -> has_pair a b s = false.
Proof.
  induction s as [|x t IH]; [reflexivity|]. simpl; intros H.
  rewrite IH by tauto.
  destruct (N.eqb_spec x a) as [-> |]; [tauto | reflexivity].
Qed.

(** A text without the pattern is returned as it is. *)
Lemma replace_without_pair (a b : N) (new s : pystr) :
  has_pair a b s = false -> replace [a; b] new s = s.
Proof.
  induction s as [| x | x y t IHt IHyt] using pair_induction; intros H.
  - reflexivity.
  - apply replace_single.
  - rewrite replace_pair. simpl in H. apply orb_false_iff in H.
    destruct H as [H1 H2]. rewrite H1. f_equal. apply IHyt. exact H2.
Qed.

(** What a replacement by one code point starts with. *)
Lemma replace_head (a b c y : N) (t : pystr) :
  exists r, replace [a; b] [c] (y :: t) = y :: r
            \/ replace [a; b] [c] (y :: t) = c :: r.
Proof.
  destruct t as [|z t].
  - rewrite replace_single; eauto.
  - rewrite replace_pair. destruct ((y =? a) && (z =? b))%N; simpl; eauto.
Qed.

Lemma has_pair_cons (a b x : N) (s : pystr) :
  has_pair a b s = false ->
  (x = a -> match s with h :: _ => h <> b | [] => True end) ->
  has_pair a b (x :: s) = false.
Proof.
  intros Hs Hx. simpl. rewrite Hs, orb_false_r.
  destruct (N.eqb_spec x a) as [E |]; [| reflexivity].
  destruct s as [|h s]; [reflexivity|].
  apply andb_false_intro2. apply N.eqb_neq. auto.
Qed.

(** Replacing a pattern by a code point that is neither of [a] and [b]
    brings no [a] before a [b]. *)
Lemma replace_keeps_no_pair (a b c d e : N) (s : pystr) :
  e <> a -> e <> b ->
  has_pair a b s = false -> has_pair a b (replace [c; d] [e] s) = false.
Proof.
  intros Ha Hb.
  induction s as [| x | x y t IHt IHyt] using pair_induction; intros H.
  - reflexivity.
  - rewrite replace_single. exact H.
  - rewrite replace_pair.
    pose proof (has_pair_tail _ _ _ _ H) as Hyt.
    destruct ((x =? c) && (y =? d))%N.
    + simpl app. apply has_pair_cons; [| intros; congruence].
      apply IHt. eapply has_pair_tail, Hyt.
    + apply has_pair_cons; [apply IHyt, Hyt|].
      intros ->. simpl in H. rewrite N.eqb_refl in H.
      apply orb_false_iff in H. destruct H as [H _]. simpl in H.
      apply N.eqb_neq in H.
      destruct (replace_head c d e y t) as [r [-> | ->]]; assumption.
Qed.

(** After its replacement a two-character pattern is gone, when what
    replaces it is neither of its characters. *)
Lemma replace_removes_pair (a b c : N) (s : pystr) :
  a <> b -> c <> a -> c <> b ->
  has_pair a b (replace [a; b] [c] s) = false.
Proof.
  intros Hab Ha Hb.
  induction s as [| x | x y t IHt IHyt] using pair_induction.
  - reflexivity.
  - rewrite replace_single. simpl. rewrite andb_false_r. reflexivity.
  - rewrite replace_pair.
    destruct ((x =? a) && (y =? b))%N eqn:E.
    + simpl app. apply has_pair_cons; [exact IHt | intros; congruence].
    + apply has_pair_cons; [exact IHyt|].
      intros ->. rewrite N.eqb_refl in E. simpl in E. apply N.eqb_neq in E.
      destruct (replace_head a b c y t) as [r [-> | ->]]; assumption.
Qed.

Lemma has_pair_prefix (a b : N) (p q : pystr) :
  has_pair a b (p ++ q) = false -> has_pair a b p = false.
Proof.
  induction p as [|x p IH]; [reflexivity|]. simpl. intros H.
  apply orb_false_iff in H. destruct H as [H1 H2].
  rewrite (IH H2), orb_false_r.
  destruct p as [|y p]; [apply andb_false_r | exact H1].
Qed.

Lemma has_pair_snoc (a b c : N) (p : pystr) :
  c <> b -> has_pair a b p = false -> has_pair a b (p ++ [c]) = false.
Proof.
  intros Hc. induction p as [|x p IH]; intros H.
  - simpl. rewrite andb_false_r. reflexivity.
  - simpl app. apply has_pair_cons; [apply IH; eapply has_pair_tail, H|].
    intros ->. destruct p as [|y p]; [exact Hc|].
    simpl in H. rewrite N.eqb_refl in H. apply orb_false_iff in H.
    destruct H as [H _]. apply N.eqb_neq in H. exact H.
Qed.

(** [lstrip] drops a run of white space at the front. *)
Lemma lstrip_suffix (s : pystr) :
  exists p, s = p ++ lstrip s /\ forallb isspace p = true.
Proof.
  induction s as [|x s [p [Hp Hs]]].
  - exists []. split; reflexivity.
  - simpl. destruct (isspace x) eqn:E.
    + exists (x :: p). simpl. rewrite E, Hs. split; [congruence | reflexivity].
    + exists []. split; reflexivity.
Qed.

(** [rstrip] drops a run of white space at the end. *)
Lemma rstrip_prefix (s : pystr) :
  exists q, s = rstrip s ++ q /\ forallb isspace q = true.
Proof.
  unfold rstrip. destruct (lstrip_suffix (rev s)) as [p [Hp Hs]].
  exists (rev p). split.
  - rewrite <- rev_app_distr, <- Hp, rev_involutive. reflexivity.
  - rewrite forallb_forall in *. intros x Hx. apply Hs, in_rev, Hx.
Qed.

Lemma lstrip_no_pair (a b : N) (s : pystr) :
  has_pair a b s = false -> has_pair a b (lstrip s) = false.
Proof.
  induction s as [|x s IH]; [reflexivity|]. intros H.
  simpl lstrip. destruct (isspace x); [| exact H].
  apply IH. eapply has_pair_tail, H.
Qed.

Lemma strip_no_pair (a b : N) (s : pystr) :
  has_pair a b s = false -> has_pair a b (strip s) = false.
Proof.
  intros H. unfold strip.
  destruct (rstrip_prefix (lstrip s)) as [q [Hq _]].
  apply (has_pair_prefix a b _ q). rewrite <- Hq.
  apply lstrip_no_pair, H.
Qed.

(** What [strip] returns does not start with white space. *)
Lemma strip_head (s r : pystr) (c : N) :
  strip s = c :: r -> isspace c = false.
Proof.
  unfold strip. intros H.
  destruct (rstrip_prefix (lstrip s)) as [q [Hq _]].
  rewrite H in Hq. simpl in Hq. eapply lstrip_head, Hq.
Qed.

(** A stripped text followed by a line feed strips back to itself. *)
Lemma strip_stripped_newline (s : pystr) :
  strip (strip s ++ [LF]) = strip s.
Proof.
  destruct (strip s) as [|c r] eqn:E; [reflexivity|].
  pose proof (strip_head _ _ _ E) as Hc.
  assert (Hrev : exists l r', rev (c :: r) = l :: r' /\ isspace l = false).
  { destruct (rev (c :: r)) as [|l r'] eqn:Er.
    - apply (f_equal (@rev N)) in Er. rewrite rev_involutive in Er.
      discriminate.
    - exists l, r'. split; [reflexivity|].
      apply (strip_last s (rev r')). rewrite E.
      apply (f_equal (@rev N)) in Er. rewrite rev_involutive in Er.
      exact Er. }
  destruct Hrev as [l [r' [Er Hl]]].
  assert (H1 : lstrip ((c :: r) ++ [LF]) = (c :: r) ++ [LF]).
  { simpl. rewrite Hc. reflexivity. }
  unfold strip at 1. rewrite H1. unfold rstrip.
  rewrite rev_app_distr, Er. simpl. rewrite Hl.
  rewrite <- Er. apply rev_involutive.
Qed.

Lemma normalize_key_no_backslash_n (k : pystr) :
  has_pair BACKSLASH LETTER_n (normalize_key k) = false.
Proof.
  unfold normalize_key.
  apply has_pair_snoc; [discriminate|].
  apply strip_no_pair.
  apply replace_keeps_no_pair; [discriminate | discriminate |].
  apply replace_removes_pair; discriminate.
Qed.

Lemma replace_crlf_spaces (s : pystr) :
  forallb isspace s = true ->
  forallb isspace (replace [CR; LF] [LF] s) = true.
Proof.
  induction s as [| x | x y t IHt IHyt] using pair_induction; intros H.
  - reflexivity.
  - rewrite replace_single. exact H.
  - rewrite replace_pair. simpl in H.
    apply andb_true_iff in H. destruct H as [Hx H].
    destruct ((x =? CR) && (y =? LF))%N.
    + simpl. apply IHt. apply andb_true_iff in H. tauto.
    + simpl. rewrite Hx. apply IHyt. exact H.
Qed.

Lemma lstrip_spaces (s : pystr) : forallb isspace s = true -> lstrip s = [].
Proof.
  induction s as [|x s IH]; [reflexivity|]. simpl. intros H.
  apply andb_true_iff in H. destruct H as [-> H]. auto.
Qed.

(** ** Further properties read off the source *)

(** X1.  Whatever it returns or raises, [get_inventory] leaves the context
    file and the standard output as they were, adds at most the one
    diagnostic line to the error stream, and only adds to the changes
    made to the file system. *)
Theorem get_inventory_frame (w : world) :
  let w' := snd (get_inventory w) in
  context_file w' = context_file w
  /\ stdout w' = stdout w
  /\ (stderr w' = stderr w
      \/ exists msg, stderr w' = stderr w ++ [load_diagnostic msg])
  /\ exists evs, fs_log w' = fs_log w ++ evs.
Proof.
  destruct (get_inventory_keeps w) as [H1 [_ [_ [H2 H3]]]].
  cbv zeta in *. repeat split; try assumption.
  destruct (context_file w) as [| msg | msg | t] eqn:Hf.
  - rewrite (get_inventory_absent _ Hf). auto.
  - rewrite (get_inventory_unreadable _ _ Hf). simpl. eauto.
  - rewrite (get_inventory_undecodable _ _ Hf). auto.
  - rewrite (get_inventory_text _ _ Hf).
    destruct (json_loads t) as [ctx | e].
    + left. apply (build_inventory_frame ctx w).
    + destruct (load_errors (exn_type e)); simpl; eauto.
Qed.

(** X2.  A run of the script ends with status 0 after printing exactly one
    document, or with status 1 after printing nothing, the traceback
    being the last thing on the error stream. *)
Theorem script_output (argv : list pystr) (w : world) :
  (fst (script argv w) = 0%N
   /\ exists doc, stdout (snd (script argv w)) = stdout w ++ [doc])
  \/ (fst (script argv w) = 1%N
      /\ stdout (snd (script argv w)) = stdout w
      /\ exists e l, stderr (snd (script argv w)) = l ++ [Traceback e]).
Proof.
  pose proof (main_world argv w) as Hm.
  destruct (get_inventory_keeps w) as [_ [_ [_ [Hout _]]]]. cbv zeta in Hout.
  unfold script.
  destruct (get_inventory w) as [[inv | e] w1]; simpl in Hout.
  - destruct Hm as [doc ->]. left. simpl. rewrite Hout. eauto.
  - rewrite Hm. right. simpl. eauto.
Qed.

(** X3.  The arguments only select what is printed: for any two argument
    lists [main] ends alike, returning or raising the same exception, with
    the same key file, the same changes to the file system and the same
    error stream.  A [--host] query writes the key as [--list] does. *)
Theorem main_effects_independent_of_args (argv1 argv2 : list pystr)
        (w : world) :
  fst (main argv1 w) = fst (main argv2 w)
  /\ key_file (snd (main argv1 w)) = key_file (snd (main argv2 w))
  /\ fs_log (snd (main argv1 w)) = fs_log (snd (main argv2 w))
  /\ stderr (snd (main argv1 w)) = stderr (snd (main argv2 w)).
Proof.
  pose proof (main_world argv1 w) as H1.
  pose proof (main_world argv2 w) as H2.
  destruct (get_inventory w) as [[inv | e] w1].
  - destruct H1 as [d1 ->], H2 as [d2 ->]. repeat split.
  - rewrite H1, H2. repeat split.
Qed.

(** X4.  [main] adds no failure of its own: it raises exactly when
    [get_inventory] raises, and then the same exception. *)
Theorem main_raises_only_with_get_inventory (argv : list pystr) (w : world) :
  fst (main argv w)
  = match fst (get_inventory w) with
    | Returned _ => Returned tt
    | Raised e => Raised e
    end.
Proof.
  pose proof (main_world argv w) as H.
  destruct (get_inventory w) as [[inv | e] w1]; simpl.
  - destruct H as [doc ->]. reflexivity.
  - rewrite H. reflexivity.
Qed.

(** X5.  An [ssh_connection] that is not an object is not replaced by
    [connection]: [get_inventory] raises an AttributeError that names its
    type, and the world is as it was. *)
Theorem ssh_connection_not_object (w : world) (t : pystr) (ctx : dict)
        (v : json) :
  context_file w = Text t ->
  json_loads t = Returned (JObj ctx) ->
  dict_lookup ctx (str "ssh_connection") = Some v ->
  (forall c, v <> JObj c) ->
  get_inventory w = (Raised (no_attribute v "get"), w).
Proof.
  intros Hf Hl Hv Hn.
  assert (Hc : context_connection ctx = v).
  { unfold context_connection. rewrite Hv. reflexivity. }
  rewrite (get_inventory_text _ _ Hf), Hl, connection_not_dict;
    rewrite Hc; [reflexivity | exact Hn].
Qed.

(** X6.  A [private_key] that is true and not a string makes
    [get_inventory] raise the AttributeError of its missing [replace],
    before the key file is opened: the world is as it was. *)
Theorem private_key_not_string (w : world) (t : pystr) (ctx c : dict)
        (v : json) :
  context_file w = Text t ->
  json_loads t = Returned (JObj ctx) ->
  context_connection ctx = JObj c ->
  dict_lookup c (str "private_key") = Some v ->
  truthy v = true ->
  (forall s, v <> JStr s) ->
  get_inventory w = (Raised (no_attribute v "replace"), w).
Proof.
  intros Hf Hl Hc Hv Ht Hn.
  assert (E : dict_get c (str "private_key") (JStr []) = v).
  { unfold dict_get. rewrite Hv. reflexivity. }
  rewrite (get_inventory_text _ _ Hf), Hl, (build_inventory_dict _ _ _ Hc).
  cbv zeta. rewrite E, Ht, (write_ssh_key_not_str _ _ Hn). reflexivity.
Qed.

(** X7.  When the context file is missing, or cannot be read or decoded
    with one of the exceptions the handler names, [--host name] adds an
    empty object to the standard output for every name and [--list] adds
    the empty inventory, each that one document alone; neither touches
    the key file. *)
Theorem main_without_context (prog name : pystr) (w : world) :
  context_file w = Absent
  \/ (exists msg, context_file w = Unreadable msg)
  \/ (exists t e, context_file w = Text t /\ json_loads t = Raised e
                  /\ load_errors (exn_type e) = true) ->
  exists wh wl,
    main [prog; str "--host"; name] w = (Returned tt, wh)
    /\ stdout wh = stdout w ++ [JObj []]
    /\ key_file wh = key_file w /\ fs_log wh = fs_log w
    /\ main [prog; str "--list"] w = (Returned tt, wl)
    /\ stdout wl = stdout w ++ [empty_inventory]
    /\ key_file wl = key_file w /\ fs_log wl = fs_log w.
Proof.
  intros H.
  assert (Hg : exists w1, get_inventory w = (Returned empty_inventory, w1)
                          /\ key_file w1 = key_file w
                          /\ fs_log w1 = fs_log w
                          /\ stdout w1 = stdout w).
  { destruct H as [Hf | [[msg Hf] | [t [e [Hf [Hl He]]]]]].
    - rewrite (get_inventory_absent _ Hf). eauto.
    - rewrite (get_inventory_unreadable _ _ Hf). eauto.
    - rewrite (get_inventory_text _ _ Hf), Hl, He. eauto. }
  destruct Hg as [w1 [Hg [Hk [Hlog Hout]]]].
  exists (put_stdout (JObj []) w1), (put_stdout empty_inventory w1).
  rewrite main_host, main_list, Hg, host_record_empty. simpl.
  rewrite Hout. auto 10.
Qed.

(** X8.  A key that can be encoded, without backslash-n, without carriage
    return and without white space at its ends, is written as it is,
    followed by one line feed. *)
Theorem clean_key_written_verbatim (k : pystr) (w : world) :
  key_io w = NoFault ->
  utf8_encodable k = true ->
  has_pair BACKSLASH LETTER_n k = false ->
  ~ In CR k ->
  strip k = k ->
  write_ssh_key (JStr k) w
  = (Returned SSH_KEY_FILE, key_written (k ++ [LF]) w).
Proof.
  intros Hio Hen Hbn Hcr Hs.
  assert (Hn : normalize_key k = k ++ [LF]).
  { unfold normalize_key.
    rewrite (replace_without_pair _ _ _ _ Hbn).
    rewrite (replace_without_pair _ _ _ _ (has_pair_absent CR LF _ Hcr)).
    rewrite Hs. reflexivity. }
  rewrite (write_ssh_key_ok _ _ Hio), Hn; [reflexivity|].
  apply utf8_encode_error_none. rewrite normalize_key_encodable. exact Hen.
Qed.

(** X9.  Normalizing twice is normalizing once, for a key whose carriage
    returns are all followed by a line feed: what the key file holds would
    be written back unchanged. *)
Theorem normalize_key_idempotent (k : pystr) :
  cr_paired k = true ->
  normalize_key (normalize_key k) = normalize_key k.
Proof.
  intros H.
  pose proof (normalize_key_no_backslash_n k) as Hbn.
  pose proof (normalize_key_no_cr _ H) as Hcr.
  unfold normalize_key at 1.
  rewrite (replace_without_pair _ _ _ _ Hbn).
  rewrite (replace_without_pair _ _ _ _ (has_pair_absent CR LF _ Hcr)).
  unfold normalize_key. rewrite strip_stripped_newline. reflexivity.
Qed.

(** X10.  The file written by [write_ssh_key] never holds a backslash
    immediately followed by the letter n. *)
Theorem key_file_no_backslash_n (k p : pystr) (w w' : world) :
  write_ssh_key (JStr k) w = (Returned p, w') ->
  exists f, key_file w' = Some f
            /\ has_pair BACKSLASH LETTER_n (content f) = false.
Proof.
  intros H. apply write_ssh_key_returned in H.
  destruct H as [k' [[= <-] [_ [_ ->]]]].
  eexists; split; [reflexivity|]. apply normalize_key_no_backslash_n.
Qed.

(** X11.  A [private_key] of white space only, not empty, passes the test
    of [get_inventory] and is written as a single line feed. *)
Theorem blank_key_written_as_newline (w : world) (t : pystr) (ctx c : dict)
        (k : pystr) :
  context_file w = Text t ->
  json_loads t = Returned (JObj ctx) ->
  context_connection ctx = JObj c ->
  dict_lookup c (str "private_key") = Some (JStr k) ->
  k <> [] -> forallb isspace k = true ->
  key_io w = NoFault ->
  get_inventory w
  = (Returned (inventory_doc (context_host_name ctx) (connection_hostvars c)),
     key_written [LF] w).
Proof.
  intros Hf Hl Hc Hk Hne Hsp Hio.
  assert (E : dict_get c (str "private_key") (JStr []) = JStr k).
  { unfold dict_get. rewrite Hk. reflexivity. }
  assert (Hn : normalize_key k = [LF]).
  { unfold normalize_key.
    rewrite (replace_without_pair BACKSLASH LETTER_n).
    - unfold strip. rewrite (lstrip_spaces _ (replace_crlf_spaces _ Hsp)).
      reflexivity.
    - apply has_pair_absent. intros Hin.
      rewrite forallb_forall in Hsp. apply Hsp in Hin. discriminate. }
  rewrite (get_inventory_text _ _ Hf), Hl, (build_inventory_dict _ _ _ Hc).
  cbv zeta. rewrite E.
  destruct k as [|x k]; [congruence|]. cbn [truthy].
  rewrite (write_ssh_key_ok _ _ Hio), Hn; [reflexivity|].
  rewrite Hn. reflexivity.
Qed.

(** X12.  When the chmod fails, [write_ssh_key] raises after a key that
    can be encoded has been written: the file holds the whole normalized
    key under the permission bits it had before, or those the umask
    leaves of 0o666 for a new file. *)
Theorem chmod_failure_leaves_key (k : pystr) (w : world) (e : exn) :
  key_io w = ChmodFault e ->
  utf8_encodable k = true ->
  exists w',
    write_ssh_key (JStr k) w = (Raised e, w')
    /\ key_file w'
       = Some (File (normalize_key k)
                    (match key_file w with
                     | Some f => mode f
                     | None => N.ldiff 438 (umask w)
                     end))
    /\ fs_log w' = fs_log w ++ [ EvOpenW SSH_KEY_FILE;
                                 EvWrite SSH_KEY_FILE (normalize_key k) ].
Proof.
  intros Hio Hen.
  assert (He : utf8_encode_error (normalize_key k) = None).
  { apply utf8_encode_error_none. rewrite normalize_key_encodable.
    exact Hen. }
  destruct w as [cf kf io um lg out err]. simpl in Hio. subst io.
  unfold write_ssh_key, bind, ret, key_open_w, key_write, key_chmod,
    log_event, set_key_file. simpl. rewrite He. simpl.
  eexists. split; [reflexivity|]. split.
  - destruct kf; reflexivity.
  - rewrite <- app_assoc. reflexivity.
Qed.

(** X13.  A second run of [get_inventory] returns the same inventory and
    leaves the key file as the first run left it. *)
Theorem get_inventory_repeatable (w w1 : world) (inv : json) :
  get_inventory w = (Returned inv, w1) ->
  exists w2, get_inventory w1 = (Returned inv, w2)
             /\ key_file w2 = key_file w1.
Proof.
  destruct (context_file w) as [| msg | msg | t] eqn:Hf.
  - rewrite (get_inventory_absent _ Hf). intros [= <- <-].
    rewrite (get_inventory_absent _ Hf). eauto.
  - rewrite (get_inventory_unreadable _ _ Hf). intros [= <- <-].
    rewrite (get_inventory_unreadable _ msg) by exact Hf. eauto.
  - rewrite (get_inventory_undecodable _ _ Hf). discriminate.
  - rewrite (get_inventory_text _ _ Hf).
    destruct (json_loads t) as [v | e] eqn:Hl.
    + destruct v as [| b | z | f | s | l | ctx];
        try (rewrite build_inventory_not_dict by discriminate; discriminate).
      destruct (context_connection ctx) as [| b | z | f | s | l | c] eqn:Hc;
        try (rewrite connection_not_dict by (rewrite Hc; discriminate);
             discriminate).
      rewrite (build_inventory_dict _ _ _ Hc). cbv zeta.
      destruct (truthy (dict_get c (str "private_key") (JStr []))) eqn:Ht.
      * destruct (write_ssh_key _ w) as [[p | e] w'] eqn:Hw; [| discriminate].
        intros [= <- <-].
        destruct (write_ssh_key_returned _ _ _ _ Hw) as [k [Ek [Hio [_ ->]]]].
        rewrite Ek in Hw.
        pose proof (write_ssh_key_returned_encodable _ _ _ _ Hw) as Hen.
        rewrite (get_inventory_text _ t) by exact Hf.
        rewrite Hl, (build_inventory_dict _ _ _ Hc). cbv zeta.
        rewrite Ht, Ek, write_ssh_key_ok by assumption. eauto.
      * intros [= <- <-].
        rewrite (get_inventory_text _ _ Hf), Hl,
          (build_inventory_dict _ _ _ Hc).
        cbv zeta. rewrite Ht. eauto.
    + destruct (load_errors (exn_type e)) eqn:He; [| discriminate].
      intros [= <- <-].
      rewrite (get_inventory_text _ t) by exact Hf.
      rewrite Hl, He. eauto.
Qed.

End Inventory.

(** ** The script on the reference runtime *)

#[export] Existing Instance Reference.runtime.

Example loads_scenario :
  Reference.loads scenario_text = Returned (JObj scenario_ctx).
Proof. vm_compute. reflexivity. Qed.

Example loads_sudo : Reference.loads sudo_text = Returned (JObj sudo_ctx).
Proof. vm_compute. reflexivity. Qed.

Example loads_rejects :
  map (fun t => match Reference.loads (json_text t) with
                | Returned _ => true
                | Raised e => false
                end)
      [ "{oops"; "[1,]"; "01"; "-"; "{'a':1,}"; "'a\qb'"; "nul"; "" ]%string
  = [ false; false; false; false; false; false; false; false ].
Proof. vm_compute. reflexivity. Qed.

Example loads_values :
  Reference.loads (json_text " [1, -2, 3.50e-2, true, null, 'x\n\u00e9', {'a': 1, 'a': {}}] ")
  = Returned (JArr [ JInt 1; JInt (-2); JFloat (FDec false 350 (-4));
                     JBool true; JNull; JStr [120; 10; 233]%N;
                     JObj [(str "a", JObj [])] ]).
Proof. vm_compute. reflexivity. Qed.

(** The end-to-end scenario: host [prod-web1], its record, and the key
    file holding KEYDATA and a line feed. *)
Example scenario_inventory :
  get_inventory (fresh_world (Text scenario_text))
  = (Returned (inventory_doc (str "prod-web1") scenario_hostvars),
     key_written (str "KEYDATA" ++ [LF]) (fresh_world (Text scenario_text))).
Proof. vm_compute. reflexivity. Qed.

Example scenario_host_unknown :
  main [str "inventory.py"; str "--host"; str "unknown"]
       (fresh_world (Text scenario_text))
  = (Returned tt,
     put_stdout (JObj [])
       (key_written (str "KEYDATA" ++ [LF]) (fresh_world (Text scenario_text)))).
Proof. vm_compute. reflexivity. Qed.

(** A carriage return before a CRLF leaves a CRLF in the key file. *)
Example normalize_cr_crlf :
  normalize_key (str "a" ++ [CR; CR; LF] ++ str "b")
  = str "a" ++ [CR; LF] ++ str "b" ++ [LF].
Proof. reflexivity. Qed.

(** A backslash followed by the letter r is kept as it is. *)
Example normalize_backslash_r :
  normalize_key (str "line2" ++ [BACKSLASH; 114%N; BACKSLASH; LETTER_n])
  = str "line2" ++ [BACKSLASH; 114%N; LF].
Proof. reflexivity. Qed.

(** A key that is not a string is passed to [write_ssh_key] when true. *)
Example key_not_a_string :
  get_inventory
    (fresh_world (Text (json_text "{'ssh_connection':{'private_key':5}}")))
  = (Raised (Exn AttributeError (str "'int' object has no attribute 'replace'")),
     fresh_world (Text (json_text "{'ssh_connection':{'private_key':5}}"))).
Proof. vm_compute. reflexivity. Qed.

(** ** Instances of the theorems, and the inputs that refute C1, C2, C3, C8 *)

Lemma scenario_key_usable (cf : input_file) :
  key_usable (fresh_world cf) scenario_connection.
Proof.
  right. split; [exists (str "KEYDATA"); split|]; reflexivity.
Defined.

Lemma sudo_key_usable (w : world) : key_usable w sudo_connection.
Proof. left. reflexivity. Defined.

(** C1 as stated fails: a context file holding the JSON array [[]] decodes
    without an error, and [get_inventory] raises an AttributeError to its
    caller. *)
Lemma get_inventory_raises_on_array :
  get_inventory (fresh_world (Text (str "[]")))
  = (Raised (Exn AttributeError (str "'list' object has no attribute 'get'")),
     fresh_world (Text (str "[]"))).
Proof. vm_compute. reflexivity. Qed.

Lemma get_inventory_failures_internalized_witness :
  get_inventory (fresh_world Absent)
  = (Returned empty_inventory, fresh_world Absent)
  /\ (exists e,
        json_loads (str "{oops") = Raised e
        /\ load_errors (exn_type e) = true
        /\ get_inventory (fresh_world (Text (str "{oops")))
           = (Returned empty_inventory,
              World (Text (str "{oops")) None NoFault 18 [] []
                    [Line (str "Error reading context file: " ++ exn_msg e)]))
  /\ (json_loads scenario_text = Returned (JObj scenario_ctx)
      /\ context_connection scenario_ctx = JObj scenario_connection
      /\ exists w',
           get_inventory (fresh_world (Text scenario_text))
           = (Returned (inventory_doc (context_host_name scenario_ctx)
                                      (connection_hostvars scenario_connection)),
              w')
           /\ stderr w' = []).
Proof.
  split; [| split].
  - apply (proj1 (get_inventory_failures_internalized (fresh_world Absent))).
    reflexivity.
  - exists (Exn JSONDecodeError (str "Expecting value")).
    split; [reflexivity|]. split; [reflexivity|].
    apply (proj1 (proj2 (proj2 (get_inventory_failures_internalized
                                  (fresh_world (Text (str "{oops"))))))
             (str "{oops") (Exn JSONDecodeError (str "Expecting value")));
      reflexivity.
  - split; [vm_compute; reflexivity|]. split; [reflexivity|].
    apply (proj1 (proj2 (proj2 (proj2 (get_inventory_failures_internalized
                                         (fresh_world (Text scenario_text))))))
             scenario_text scenario_ctx scenario_connection).
    + reflexivity.
    + vm_compute; reflexivity.
    + reflexivity.
    + apply scenario_key_usable.
Defined.

(** C2 as stated fails: a carriage return that no line feed follows is
    written to the key file. *)
Lemma key_file_keeps_lone_cr :
  write_ssh_key (JStr (str "a" ++ [CR] ++ str "b")) (fresh_world Absent)
  = (Returned SSH_KEY_FILE,
     key_written (str "a" ++ [CR] ++ str "b" ++ [LF]) (fresh_world Absent))
  /\ In CR (str "a" ++ [CR] ++ str "b" ++ [LF]).
Proof. split; [vm_compute; reflexivity | simpl; auto]. Qed.

Lemma key_file_line_endings_witness :
  write_ssh_key (JStr (str "line1" ++ [CR; LF] ++ str "line2" ++ [CR; LF]))
                (fresh_world Absent)
  = (Returned SSH_KEY_FILE,
     key_written (str "line1" ++ [LF] ++ str "line2" ++ [LF])
                 (fresh_world Absent))
  /\ exists f,
       key_file (key_written (str "line1" ++ [LF] ++ str "line2" ++ [LF])
                             (fresh_world Absent)) = Some f
       /\ one_trailing_newline (content f)
       /\ (cr_paired (str "line1" ++ [CR; LF] ++ str "line2" ++ [CR; LF]) = true
           -> ~ In CR (content f)).
Proof.
  assert (H : write_ssh_key
                (JStr (str "line1" ++ [CR; LF] ++ str "line2" ++ [CR; LF]))
                (fresh_world Absent)
              = (Returned SSH_KEY_FILE,
                 key_written (str "line1" ++ [LF] ++ str "line2" ++ [LF])
                             (fresh_world Absent)))
    by (vm_compute; reflexivity).
  split; [exact H|].
  exact (key_file_line_endings _ _ _ _ H).
Defined.

(** C3 as stated fails: the input "line1" backslash-n "line2"
    backslash-r backslash-n keeps its backslash-r, and what is written is
    not "line1" LF "line2" LF. *)
Lemma key_file_keeps_backslash_r :
  write_ssh_key
    (JStr (str "line1" ++ [BACKSLASH; LETTER_n] ++ str "line2"
           ++ [BACKSLASH; 114%N; BACKSLASH; LETTER_n]))
    (fresh_world Absent)
  = (Returned SSH_KEY_FILE,
     key_written (str "line1" ++ [LF] ++ str "line2" ++ [BACKSLASH; 114%N; LF])
                 (fresh_world Absent))
  /\ str "line1" ++ [LF] ++ str "line2" ++ [BACKSLASH; 114%N; LF]
     <> str "line1" ++ [LF] ++ str "line2" ++ [LF].
Proof. split; [vm_compute; reflexivity | discriminate]. Qed.

Lemma key_file_normalization_witness :
  (key_io (fresh_world Absent) = NoFault
   /\ utf8_encodable
        (str "line1" ++ [BACKSLASH; LETTER_n] ++ str "line2" ++ [CR; LF])
      = true)
  /\ exists w',
       write_ssh_key
         (JStr (str "line1" ++ [BACKSLASH; LETTER_n] ++ str "line2" ++ [CR; LF]))
         (fresh_world Absent)
       = (Returned SSH_KEY_FILE, w')
       /\ option_map content (key_file w')
          = Some (str "line1" ++ [LF] ++ str "line2" ++ [LF]).
Proof.
  split; [split; reflexivity|].
  destruct (key_file_normalization
              (str "line1" ++ [BACKSLASH; LETTER_n] ++ str "line2" ++ [CR; LF])
              (fresh_world Absent) eq_refl eq_refl) as [w' [H [_ [Hc _]]]].
  exists w'. split; [exact H | exact (Hc eq_refl)].
Defined.

Lemma get_inventory_no_context_witness :
  context_file (stale_key_world Absent) = Absent
  /\ get_inventory (stale_key_world Absent)
     = (Returned (JObj [(str "_meta", JObj [(str "hostvars", JObj [])])]),
        stale_key_world Absent).
Proof.
  split; [reflexivity|].
  apply (get_inventory_no_context (stale_key_world Absent)). reflexivity.
Defined.

Lemma host_identifier_witness :
  (json_loads sudo_text = Returned (JObj sudo_ctx)
   /\ context_connection sudo_ctx = JObj sudo_connection)
  /\ exists host hv w',
       get_inventory (fresh_world (Text sudo_text))
       = (Returned (inventory_doc host hv), w')
       /\ host = str "unknown-db"
       /\ dict_lookup hv (str "ansible_host") = Some (JStr (str "db.internal"))
       /\ dict_lookup hv (str "ansible_port") = Some (JInt 22)
       /\ dict_lookup hv (str "ansible_user") = Some (JStr (str "root")).
Proof.
  assert (Hl : json_loads sudo_text = Returned (JObj sudo_ctx))
    by (vm_compute; reflexivity).
  split; [split; [exact Hl | reflexivity]|].
  destruct (host_identifier (fresh_world (Text sudo_text)) sudo_text
              sudo_ctx sudo_connection eq_refl Hl eq_refl
              (sudo_key_usable _))
    as [host [hv [w' [H [Hh [_ [_ [H1 [H2 H3]]]]]]]]].
  exists host, hv, w'. repeat split; assumption.
Defined.

Lemma become_password_iff_witness :
  (json_loads sudo_text = Returned (JObj sudo_ctx)
   /\ context_connection sudo_ctx = JObj sudo_connection)
  /\ exists host hv w',
       get_inventory (fresh_world (Text sudo_text))
       = (Returned (inventory_doc host hv), w')
       /\ dict_lookup hv (str "ansible_become_password")
          = Some (JStr (str "s3cret")).
Proof.
  assert (Hl : json_loads sudo_text = Returned (JObj sudo_ctx))
    by (vm_compute; reflexivity).
  split; [split; [exact Hl | reflexivity]|].
  destruct (become_password_iff (fresh_world (Text sudo_text)) sudo_text
              sudo_ctx sudo_connection eq_refl Hl eq_refl
              (sudo_key_usable _))
    as [host [hv [w' [H [Hp _]]]]].
  exists host, hv, w'. split; [exact H|].
  apply Hp. split; reflexivity.
Defined.

Lemma main_dispatch_witness :
  get_inventory (fresh_world (Text scenario_text))
  = (Returned (inventory_doc (str "prod-web1") scenario_hostvars),
     key_written (str "KEYDATA" ++ [LF]) (fresh_world (Text scenario_text)))
  /\ main [str "inventory.py"; str "--host"; str "prod-web1"]
          (fresh_world (Text scenario_text))
     = (Returned tt,
        World (Text scenario_text) (Some (File (str "KEYDATA" ++ [LF]) 384))
              NoFault 18
              [ EvOpenW SSH_KEY_FILE;
                EvWrite SSH_KEY_FILE (str "KEYDATA" ++ [LF]);
                EvChmod SSH_KEY_FILE 384 ]
              [JObj scenario_hostvars] [])
  /\ main [str "inventory.py"] (fresh_world (Text scenario_text))
     = main [str "inventory.py"; str "--list"]
            (fresh_world (Text scenario_text)).
Proof.
  assert (H : get_inventory (fresh_world (Text scenario_text))
              = (Returned (inventory_doc (str "prod-web1") scenario_hostvars),
                 key_written (str "KEYDATA" ++ [LF])
                             (fresh_world (Text scenario_text))))
    by (vm_compute; reflexivity).
  split; [exact H|].
  destruct (main_dispatch (str "inventory.py")
              (fresh_world (Text scenario_text))) as [Hret [Hdef _]].
  split.
  - destruct (Hret _ _ H) as [_ [_ [_ Hhost]]].
    exact (proj1 (Hhost (str "prod-web1") scenario_hostvars eq_refl)).
  - apply Hdef; [discriminate | intros name; discriminate].
Defined.

(** C8 as stated fails: on a context file holding [null] no operation on
    the key file fails, none is attempted, and the exit status is 1. *)
Lemma exit_status_nonzero_without_key_fault :
  key_io (fresh_world (Text (str "null"))) = NoFault
  /\ script [str "inventory.py"; str "--list"] (fresh_world (Text (str "null")))
     = (1%N,
        World (Text (str "null")) None NoFault 18 [] []
              [Traceback (Exn AttributeError
                              (str "'NoneType' object has no attribute 'get'"))]).
Proof. split; [reflexivity | vm_compute; reflexivity]. Qed.

Lemma exit_status_witness :
  (json_loads scenario_text = Returned (JObj scenario_ctx)
   /\ key_io (read_only_world (Text scenario_text)) = OpenFault denied)
  /\ (get_inventory (read_only_world (Text scenario_text))
      = (Raised denied, read_only_world (Text scenario_text))
      /\ fst (script [str "inventory.py"; str "--list"]
                     (read_only_world (Text scenario_text))) = 1%N
      /\ stdout (snd (script [str "inventory.py"; str "--list"]
                             (read_only_world (Text scenario_text)))) = []
      /\ stderr (snd (script [str "inventory.py"; str "--list"]
                             (read_only_world (Text scenario_text))))
         = [Traceback denied])
  /\ fst (script [str "inventory.py"; str "--list"]
                 (fresh_world (Text scenario_text))) = 0%N.
Proof.
  assert (Hl : json_loads scenario_text = Returned (JObj scenario_ctx))
    by (vm_compute; reflexivity).
  split; [split; [exact Hl | reflexivity]|].
  split.
  - destruct (proj1 (exit_status [str "inventory.py"; str "--list"]
                       (read_only_world (Text scenario_text)))
                scenario_text scenario_ctx scenario_connection
                (str "KEYDATA") denied eq_refl Hl eq_refl eq_refl)
      as [w' [_ [_ [_ [Hs [Ho He]]]]]].
    + discriminate.
    + left. reflexivity.
    + split; [vm_compute; reflexivity|].
      split; [exact Hs|]. split; [exact Ho | exact He].
  - apply (proj2 (proj2 (proj2 (proj2 (proj2
             (exit_status [str "inventory.py"; str "--list"]
                          (fresh_world (Text scenario_text)))))))
             scenario_text scenario_ctx scenario_connection eq_refl Hl eq_refl).
    apply scenario_key_usable.
Defined.

Lemma key_file_permissions_witness :
  write_ssh_key (JStr (str "KEYDATA")) (stale_key_world Absent)
  = (Returned SSH_KEY_FILE,
     key_written (str "KEYDATA" ++ [LF]) (stale_key_world Absent))
  /\ (exists f,
        key_file (key_written (str "KEYDATA" ++ [LF]) (stale_key_world Absent))
        = Some f
        /\ mode f = N.lor S_IRUSR S_IWUSR
        /\ mode f = 384%N
        /\ N.land (mode f) 63 = 0%N).
Proof.
  assert (H : write_ssh_key (JStr (str "KEYDATA")) (stale_key_world Absent)
              = (Returned SSH_KEY_FILE,
                 key_written (str "KEYDATA" ++ [LF]) (stale_key_world Absent)))
    by (vm_compute; reflexivity).
  split; [exact H|].
  exact (proj1 (key_file_permissions _ _ _ _ H)).
Defined.

Lemma no_key_no_write_witness :
  (json_loads sudo_text = Returned (JObj sudo_ctx)
   /\ dict_lookup sudo_connection (str "private_key") = None)
  /\ exists host hv w',
       get_inventory (stale_key_world (Text sudo_text))
       = (Returned (inventory_doc host hv), w')
       /\ key_file w' = Some (File (str "OLDKEY") 420)
       /\ fs_log w' = []
       /\ dict_lookup hv (str "ansible_ssh_private_key_file")
          = Some (JStr (str "/tmp/dockflow_key")).
Proof.
  assert (Hl : json_loads sudo_text = Returned (JObj sudo_ctx))
    by (vm_compute; reflexivity).
  split; [split; [exact Hl | reflexivity]|].
  destruct (no_key_no_write (stale_key_world (Text sudo_text)) sudo_text
              sudo_ctx sudo_connection eq_refl Hl eq_refl
              (or_introl eq_refl))
    as [host [hv [w' [H [Hk [Hlog Hp]]]]]].
  exists host, hv, w'. repeat split; assumption.
Defined.

(** ** Instances of the further properties *)

(** Without the hypothesis of X9: a carriage return before a CRLF. *)
Example normalize_twice_differs :
  normalize_key (str "a" ++ [CR; CR; LF] ++ str "b")
  = str "a" ++ [CR; LF] ++ str "b" ++ [LF]
  /\ normalize_key (normalize_key (str "a" ++ [CR; CR; LF] ++ str "b"))
     = str "a" ++ [LF] ++ str "b" ++ [LF].
Proof. split; reflexivity. Qed.

Lemma ssh_connection_not_object_witness :
  (json_loads shadowed_text = Returned (JObj shadowed_ctx)
   /\ dict_lookup shadowed_ctx (str "ssh_connection") = Some JNull)
  /\ get_inventory (stale_key_world (Text shadowed_text))
     = (Raised (Exn AttributeError
                    (str "'NoneType' object has no attribute 'get'")),
        stale_key_world (Text shadowed_text)).
Proof.
  assert (Hl : json_loads shadowed_text = Returned (JObj shadowed_ctx))
    by (vm_compute; reflexivity).
  split; [split; [exact Hl | reflexivity]|].
  apply (ssh_connection_not_object (stale_key_world (Text shadowed_text))
           shadowed_text shadowed_ctx JNull eq_refl Hl eq_refl).
  intros c. discriminate.
Defined.

Lemma private_key_not_string_witness :
  json_loads numeric_key_text = Returned (JObj numeric_key_ctx)
  /\ get_inventory (stale_key_world (Text numeric_key_text))
     = (Raised (Exn AttributeError
                    (str "'int' object has no attribute 'replace'")),
        stale_key_world (Text numeric_key_text)).
Proof.
  assert (Hl : json_loads numeric_key_text = Returned (JObj numeric_key_ctx))
    by (vm_compute; reflexivity).
  split; [exact Hl|].
  apply (private_key_not_string (stale_key_world (Text numeric_key_text))
           numeric_key_text numeric_key_ctx
           [(str "private_key", JInt 5)] (JInt 5) eq_refl Hl eq_refl eq_refl
           eq_refl).
  intros s. discriminate.
Defined.

Lemma main_without_context_witness :
  context_file (stale_key_world (Unreadable (str "[Errno 13] Permission denied")))
  = Unreadable (str "[Errno 13] Permission denied")
  /\ exists wh,
       main [str "inventory.py"; str "--host"; str "prod-web1"]
            (stale_key_world (Unreadable (str "[Errno 13] Permission denied")))
       = (Returned tt, wh)
       /\ stdout wh = [JObj []]
       /\ key_file wh = Some (File (str "OLDKEY") 420).
Proof.
  split; [reflexivity|].
  destruct (main_without_context (str "inventory.py") (str "prod-web1")
              (stale_key_world (Unreadable (str "[Errno 13] Permission denied")))
              (or_intror (or_introl (ex_intro _ _ eq_refl))))
    as [wh [wl [Hh [Ho [Hk _]]]]].
  exists wh. repeat split; assumption.
Defined.

Lemma clean_key_written_verbatim_witness :
  (has_pair BACKSLASH LETTER_n (str "KEY" ++ [LF] ++ str "DATA") = false
   /\ strip (str "KEY" ++ [LF] ++ str "DATA") = str "KEY" ++ [LF] ++ str "DATA")
  /\ write_ssh_key (JStr (str "KEY" ++ [LF] ++ str "DATA")) (fresh_world Absent)
     = (Returned SSH_KEY_FILE,
        key_written (str "KEY" ++ [LF] ++ str "DATA" ++ [LF])
                    (fresh_world Absent)).
Proof.
  split; [split; reflexivity|].
  refine (eq_trans
            (clean_key_written_verbatim (str "KEY" ++ [LF] ++ str "DATA")
               (fresh_world Absent) eq_refl eq_refl eq_refl _ eq_refl) _).
  - simpl. intros H.
    repeat (destruct H as [H | H]; [discriminate|]). exact H.
  - vm_compute. reflexivity.
Defined.

Lemma normalize_key_idempotent_witness :
  cr_paired (str "line1" ++ [BACKSLASH; LETTER_n] ++ str "line2" ++ [CR; LF])
  = true
  /\ normalize_key
       (normalize_key
          (str "line1" ++ [BACKSLASH; LETTER_n] ++ str "line2" ++ [CR; LF]))
     = normalize_key
         (str "line1" ++ [BACKSLASH; LETTER_n] ++ str "line2" ++ [CR; LF]).
Proof.
  split; [reflexivity|].
  apply (normalize_key_idempotent
           (str "line1" ++ [BACKSLASH; LETTER_n] ++ str "line2" ++ [CR; LF])).
  reflexivity.
Defined.

Lemma key_file_no_backslash_n_witness :
  write_ssh_key (JStr ([BACKSLASH; BACKSLASH; LETTER_n; LETTER_n]))
                (fresh_world Absent)
  = (Returned SSH_KEY_FILE,
     key_written [BACKSLASH; LF; LETTER_n; LF] (fresh_world Absent))
  /\ exists f,
       key_file (key_written [BACKSLASH; LF; LETTER_n; LF] (fresh_world Absent))
       = Some f
       /\ has_pair BACKSLASH LETTER_n (content f) = false.
Proof.
  assert (H : write_ssh_key (JStr ([BACKSLASH; BACKSLASH; LETTER_n; LETTER_n]))
                            (fresh_world Absent)
              = (Returned SSH_KEY_FILE,
                 key_written [BACKSLASH; LF; LETTER_n; LF]
                             (fresh_world Absent)))
    by (vm_compute; reflexivity).
  split; [exact H|].
  exact (key_file_no_backslash_n _ _ _ _ H).
Defined.

Lemma blank_key_written_as_newline_witness :
  json_loads blank_key_text = Returned (JObj blank_key_ctx)
  /\ exists doc,
       get_inventory (stale_key_world (Text blank_key_text))
       = (Returned doc, key_written [LF] (stale_key_world (Text blank_key_text))).
Proof.
  assert (Hl : json_loads blank_key_text = Returned (JObj blank_key_ctx))
    by (vm_compute; reflexivity).
  split; [exact Hl|]. eexists.
  apply (blank_key_written_as_newline (stale_key_world (Text blank_key_text))
           blank_key_text blank_key_ctx
           [(str "private_key", JStr [32; 32; 10]%N)] [32; 32; 10]%N
           eq_refl Hl eq_refl eq_refl).
  - discriminate.
  - reflexivity.
  - reflexivity.
Defined.

Lemma chmod_failure_leaves_key_witness :
  key_io (chmod_denied_world None) = ChmodFault not_permitted
  /\ exists w',
       write_ssh_key (JStr (str "KEYDATA")) (chmod_denied_world None)
       = (Raised not_permitted, w')
       /\ key_file w' = Some (File (str "KEYDATA" ++ [LF]) 420).
Proof.
  split; [reflexivity|].
  destruct (chmod_failure_leaves_key (str "KEYDATA") (chmod_denied_world None)
              not_permitted eq_refl eq_refl) as [w' [H [Hk _]]].
  exists w'. split; [exact H | exact Hk].
Defined.

Lemma get_inventory_repeatable_witness :
  get_inventory (fresh_world (Text scenario_text))
  = (Returned (inventory_doc (str "prod-web1") scenario_hostvars),
     key_written (str "KEYDATA" ++ [LF]) (fresh_world (Text scenario_text)))
  /\ exists w2,
       get_inventory
         (key_written (str "KEYDATA" ++ [LF]) (fresh_world (Text scenario_text)))
       = (Returned (inventory_doc (str "prod-web1") scenario_hostvars), w2)
       /\ key_file w2 = Some (File (str "KEYDATA" ++ [LF]) 384).
Proof.
  assert (H : get_inventory (fresh_world (Text scenario_text))
              = (Returned (inventory_doc (str "prod-web1") scenario_hostvars),
                 key_written (str "KEYDATA" ++ [LF])
                             (fresh_world (Text scenario_text))))
    by (vm_compute; reflexivity).
  split; [exact H|].
  destruct (get_inventory_repeatable _ _ _ H) as [w2 [H2 Hk]].
  exists w2. split; [exact H2 | exact Hk].
Defined.

(** A key with a lone surrogate cannot be encoded: the key file is left
    open-truncated, empty, under the bits of a new file, and the
    UnicodeEncodeError of the write reaches the caller. *)
Example key_with_lone_surrogate :
  get_inventory
    (fresh_world
       (Text (json_text "{'ssh_connection':{'private_key':'\ud800KEY'}}")))
  = (Raised
       (Exn UnicodeEncodeError
            (str "'utf-8' codec can't encode character '\ud800' in position 0: surrogates not allowed")),
     World (Text (json_text "{'ssh_connection':{'private_key':'\ud800KEY'}}"))
           (Some (File [] 420)) NoFault 18 [EvOpenW SSH_KEY_FILE] [] []).
Proof. vm_compute. reflexivity. Qed.
